(** * gigs-demo: the eSIM activation rule engine and its orchestrator

    A shallow embedding of [src/rules/ruleEngine.js], of the Gigs API client
    ([reprovisionSIM], [getSubscription]), of the boundary of
    [src/llm/llmHandler.js] and of the [POST /diagnose] handler, followed by
    the properties of the specification that were settled against them.

    Conventions of the embedding.
    - A JavaScript property that may be missing ([undefined] or [null]) is an
      [option]; [data.sim || {}] and [data.sim?.createdAt] are written out as
      [or_empty] and [opt_chain].
    - A timestamp field holds the instant, in milliseconds since the epoch,
      that [new Date(createdAt)] denotes; the clock reading [new Date()] is an
      explicit argument [now].
    - Strings are the UTF-8 bytes of the JavaScript strings; [toLowerCase]
      is exact on every character that an ASCII keyword can meet.
    - The outbound calls (HTTP, generative model) are oracles gathered in a
      [World] record; the handler returns the trace of the calls it made
      together with the HTTP response. *)

From Stdlib Require Import ZArith List Bool Ascii String Lia.
From Stdlib Require Import Numbers.DecimalString.
From Stdlib Require Import Sorting.Permutation.
Import ListNotations.

Open Scope string_scope.
Open Scope Z_scope.

(** ** JavaScript primitives used by the sources *)

Module Js.

(** [c.toLowerCase()] on one code unit: the letters A..Z are shifted by 32. *)
Definition lower_ascii (c : ascii) : ascii :=
  let n := nat_of_ascii c in
  if ((65 <=? n)%nat && (n <=? 90)%nat)%bool then ascii_of_nat (n + 32) else c.

(** The bytes of the two characters outside ASCII whose lower-casing holds
    an ASCII letter: U+212A KELVIN SIGN (E2 84 AA), which lower-cases to k,
    and U+0130 LATIN CAPITAL LETTER I WITH DOT ABOVE (C4 B0), which
    lower-cases to i followed by U+0307 (CC 87). *)
Definition xE2 : ascii := ascii_of_nat 226.
Definition x84 : ascii := ascii_of_nat 132.
Definition xAA : ascii := ascii_of_nat 170.
Definition xC4 : ascii := ascii_of_nat 196.
Definition xB0 : ascii := ascii_of_nat 176.
Definition xCC : ascii := ascii_of_nat 204.
Definition x87 : ascii := ascii_of_nat 135.

(** A byte below 128: an ASCII character. *)
Definition is_ascii (c : ascii) : bool :=
  match c with
  | Ascii _ _ _ _ _ _ _ b7 => negb b7
  end.

(** [s.toLowerCase()] on the UTF-8 bytes of [s]. The characters whose
    lower-casing holds an ASCII character are lower-cased as JavaScript
    does: the letters A..Z, the Kelvin sign and the dotted capital I. Every
    other character lower-cases to characters outside ASCII; its bytes, all
    above 127, are kept as they are, which no search for an ASCII keyword
    can tell from the bytes of its lower-casing. *)
Fixpoint toLowerCase (s : string) : string :=
  match s with
  | EmptyString => EmptyString
  | String c1 t1 =>
      match t1 with
      | EmptyString => String (lower_ascii c1) EmptyString
      | String c2 t2 =>
          if (Ascii.eqb c1 xC4 && Ascii.eqb c2 xB0)%bool
          then String "i" (String xCC (String x87 (toLowerCase t2)))
          else
            match t2 with
            | EmptyString => String (lower_ascii c1) (toLowerCase t1)
            | String c3 t3 =>
                if (Ascii.eqb c1 xE2 && Ascii.eqb c2 x84 && Ascii.eqb c3 xAA)%bool
                then String "k" (toLowerCase t3)
                else String (lower_ascii c1) (toLowerCase t1)
            end
      end
  end.

(** [s] starts with the bytes of the Kelvin sign or of the dotted capital I. *)
Definition starts_special (s : string) : bool :=
  match s with
  | String c1 (String c2 t2) =>
      ((Ascii.eqb c1 xC4 && Ascii.eqb c2 xB0) ||
       match t2 with
       | String c3 _ => Ascii.eqb c1 xE2 && Ascii.eqb c2 x84 && Ascii.eqb c3 xAA
       | EmptyString => false
       end)%bool
  | _ => false
  end.

(** [s.startsWith(kw)] *)
Fixpoint startsWith (s kw : string) : bool :=
  match kw, s with
  | EmptyString, _ => true
  | String _ _, EmptyString => false
  | String k kw', String c s' => (Ascii.eqb k c && startsWith s' kw')%bool
  end.

(** [s.includes(kw)]: [kw] occurs at some offset of [s]. *)
Fixpoint includes (s kw : string) : bool :=
  (startsWith s kw ||
   match s with
   | EmptyString => false
   | String _ t => includes t kw
   end)%bool.

(** [keywords.some(kw => text.includes(kw))] *)
Definition some_includes (keywords : list string) (text : string) : bool :=
  existsb (fun kw => includes text kw) keywords.

(** [v === lit] for a property [v] that may be missing and a string literal. *)
Definition strict_eq (v : option string) (lit : string) : bool :=
  match v with
  | Some s => String.eqb s lit
  | None => false
  end.

(** Truthiness of a string-valued property: missing and [''] are falsy. *)
Definition truthy (v : option string) : bool :=
  match v with
  | Some s => negb (String.eqb s "")
  | None => false
  end.

(** [a || b] on properties whose present values are all truthy. *)
Definition or_else {A : Type} (a b : option A) : option A :=
  match a with
  | Some _ => a
  | None => b
  end.

(** [o?.f] *)
Definition opt_chain {A B : Type} (o : option A) (f : A -> option B) : option B :=
  match o with
  | Some x => f x
  | None => None
  end.

(** [`${n}`] for an integer [n] *)
Definition show (n : Z) : string := NilZero.string_of_int (Z.to_int n).

(** The line break of a string literal. *)
Definition nl : string := String (ascii_of_nat 10) EmptyString.

End Js.

(** ** The data model *)

Module Sim.
Record t : Type := mk
  { id : option string;
    status : option string;
    createdAt : option Z }.

(** The object literal [{}]. *)
Definition empty : t := mk None None None.
End Sim.

Module Subscription.
Record t : Type := mk
  { status : option string;
    createdAt : option Z;
    sim : option Sim.t }.
End Subscription.

(** The object a matching rule returns. [simId] is set by rule 1 only, to
    whatever [sim.id] holds. *)
Record RuleResult : Type := mkRuleResult
  { ruleName : string;
    confidence : Z;
    action : string;
    simId : option string;
    message : string;
    reasoning : string }.

(** ** src/rules/ruleEngine.js *)

Module RuleEngine.

(** [data.sim || {}] *)
Definition or_empty (s : option Sim.t) : Sim.t :=
  match s with
  | Some x => x
  | None => Sim.empty
  end.

(** [_minutesSinceActivation(data)], the clock being read as [now]. *)
Definition _minutesSinceActivation (now : Z) (data : Subscription.t) : Z :=
  let createdAt :=
    Js.or_else (Subscription.createdAt data)
               (Js.opt_chain (Subscription.sim data) Sim.createdAt) in
  match createdAt with
  | None => 0
  | Some createdTime =>
      let diffMs := now - createdTime in
      diffMs / (1000 * 60)
  end.

Definition stuck_message : string :=
  "We detected your activation was stuck. We've reset it — please restart your phone in 2 minutes and check again.".

(** RULE 1 *)
Definition ruleProvisioningStuck (now : Z) (data : Subscription.t) (userIssue : string)
  : option RuleResult :=
  let sim := or_empty (Subscription.sim data) in
  let subscription := data in
  if (Js.strict_eq (Sim.status sim) "inactive" &&
      Js.strict_eq (Subscription.status subscription) "pending" &&
      (15 <? _minutesSinceActivation now data))%bool
  then Some
    {| ruleName := "provisioning_stuck";
       confidence := 95;
       action := "reprovision";
       simId := Sim.id sim;
       message := stuck_message;
       reasoning := "Provisioning has been pending for "
                    ++ Js.show (_minutesSinceActivation now data)
                    ++ " minutes (>15 min threshold)" |}
  else None.

(** RULE 2 *)
Definition ruleBillingHold (now : Z) (data : Subscription.t) (userIssue : string)
  : option RuleResult :=
  let sim := or_empty (Subscription.sim data) in
  let subscription := data in
  if (Js.strict_eq (Sim.status sim) "inactive" &&
      Js.strict_eq (Subscription.status subscription) "initiated")%bool
  then Some
    {| ruleName := "billing_hold";
       confidence := 98;
       action := "route_to_payment";
       simId := None;
       message := "Your activation is on hold due to a payment issue. Please update your payment method to continue.";
       reasoning := "Subscription is in 'initiated' status, indicating unpaid first invoice" |}
  else None.

(** RULE 3 *)
Definition ruleNormalDelay (now : Z) (data : Subscription.t) (userIssue : string)
  : option RuleResult :=
  let sim := or_empty (Subscription.sim data) in
  let subscription := data in
  let minutesElapsed := _minutesSinceActivation now data in
  if (Js.strict_eq (Sim.status sim) "inactive" &&
      Js.strict_eq (Subscription.status subscription) "pending" &&
      (minutesElapsed <? 15))%bool
  then
    let minutesRemaining := 15 - minutesElapsed in
    Some
    {| ruleName := "normal_delay";
       confidence := 90;
       action := "wait";
       simId := None;
       message := "Your activation is in progress. This usually takes 10-15 minutes. Please wait "
                  ++ Js.show minutesRemaining
                  ++ " more minute(s) and restart your phone.";
       reasoning := "Only " ++ Js.show minutesElapsed
                    ++ " minutes have elapsed - still within normal activation window" |}
  else None.

Definition noServiceKeywords : list string :=
  ["no service"; "no data"; "not working"; "no signal"].

(** RULE 4 *)
Definition ruleDeviceConfig (now : Z) (data : Subscription.t) (userIssue : string)
  : option RuleResult :=
  let sim := or_empty (Subscription.sim data) in
  let subscription := data in
  let mentionsNoService :=
    Js.some_includes noServiceKeywords (Js.toLowerCase userIssue) in
  if (Js.strict_eq (Sim.status sim) "active" &&
      Js.strict_eq (Subscription.status subscription) "active" &&
      mentionsNoService)%bool
  then Some
    {| ruleName := "device_config";
       confidence := 85;
       action := "route_to_settings_guide";
       simId := None;
       message := "Your line is active on our end. Let's check your device settings:" ++ Js.nl
                  ++ "1. Is your eSIM selected as the default for calls/data?" ++ Js.nl
                  ++ "2. Is Airplane Mode off?" ++ Js.nl
                  ++ "3. Have you restarted your phone?" ++ Js.nl
                  ++ "[Link to detailed settings guide would go here]";
       reasoning := "Backend shows active status but user reports no service - likely device configuration issue" |}
  else None.

(** RULE 5 *)
Definition rulePaymentOverdue (now : Z) (data : Subscription.t) (userIssue : string)
  : option RuleResult :=
  let subscription := data in
  if Js.strict_eq (Subscription.status subscription) "restricted"
  then Some
    {| ruleName := "payment_overdue";
       confidence := 98;
       action := "route_to_payment_restoration";
       simId := None;
       message := "Your service is restricted due to an overdue payment. Update your payment method to restore service immediately.";
       reasoning := "Subscription status is 'restricted' indicating service suspension" |}
  else None.

(** RULE 6 *)
Definition ruleSubscriptionEnded (now : Z) (data : Subscription.t) (userIssue : string)
  : option RuleResult :=
  let subscription := data in
  if Js.strict_eq (Subscription.status subscription) "ended"
  then Some
    {| ruleName := "subscription_ended";
       confidence := 100;
       action := "inform_only";
       simId := None;
       message := "This subscription has been canceled. If you'd like to reactivate service, please contact support or purchase a new plan.";
       reasoning := "Subscription is in terminal 'ended' state" |}
  else None.

Definition activationFailedKeyword : list string := ["activation failed"].

(** RULE 7 *)
Definition ruleActivationFailed (now : Z) (data : Subscription.t) (userIssue : string)
  : option RuleResult :=
  let mentionsActivationFailed :=
    Js.some_includes activationFailedKeyword (Js.toLowerCase userIssue) in
  if mentionsActivationFailed
  then Some
    {| ruleName := "activation_failed";
       confidence := 85;
       action := "reprovision";
       simId := None;
       message := stuck_message;
       reasoning := "Provisioning has been pending for 20 minutes" |}
  else None.

(** A rule: a method called as [rule.call(this, subscriptionData, userIssue)]. *)
Definition Rule : Type := Z -> Subscription.t -> string -> option RuleResult.

(** The array [rules] of [evaluate]. *)
Definition rules : list Rule :=
  [ ruleProvisioningStuck;
    ruleBillingHold;
    ruleNormalDelay;
    ruleDeviceConfig;
    rulePaymentOverdue;
    ruleSubscriptionEnded;
    ruleActivationFailed ].

(** The [for (const rule of rules)] loop. Besides the result it returns how
    many rules were called before the loop was left. *)
Fixpoint run_rules (rs : list Rule) (now : Z) (data : Subscription.t) (userIssue : string)
  : nat * option RuleResult :=
  match rs with
  | [] => (0%nat, None)
  | rule :: rest =>
      match rule now data userIssue with
      | Some result => (1%nat, Some result)
      | None =>
          let '(n, r) := run_rules rest now data userIssue in (S n, r)
      end
  end.

(** [evaluate(subscriptionData, userIssue)]; [None] is the [null] of "no
    rule matched". *)
Definition evaluate (now : Z) (data : Subscription.t) (userIssue : string)
  : option RuleResult :=
  snd (run_rules rules now data userIssue).

(** The number of rules [evaluate] calls. *)
Definition consulted (now : Z) (data : Subscription.t) (userIssue : string) : nat :=
  fst (run_rules rules now data userIssue).

End RuleEngine.

(** ** The outside world

    The subscription provider and the generative model are external: what a
    call returns is given by an oracle, and a call that throws is [Failed].
    [error] is what the code keeps of the exception: for the provider's
    client the payload [error.response?.data || { message: error.message }],
    as the JSON text it is sent back as, and for the model [error.message]. *)

Inductive ApiReply (A : Type) : Type :=
| Reply (data : A)
| Failed (error : string).

Arguments Reply {A} data.
Arguments Failed {A} error.

(** An outbound call, as it leaves the process. *)
Inductive Call : Type :=
| HttpGet (url : string)
| HttpPost (url : string)
| GenerateContent.

(** ** The Gigs API client (src/unnamed/part_000, first file) *)

Module GigsClient.

(** The payload of an action outcome: what the provider answered, or the
    object [reprovisionSIM] makes up in its [catch] branch. *)
Inductive Payload : Type :=
| ProviderData (body : string)
| Synthesized (simId : string) (action : string) (message : string) (timestamp : Z).

(** The object [reprovisionSIM] returns. [mocked] is [None] where the
    property is not set. *)
Record ActionOutcome : Type := mkOutcome
  { success : bool;
    data : Payload;
    mocked : option bool }.

(** The object [getSubscription] returns. *)
Inductive SubscriptionResponse : Type :=
| Fetched (data : Subscription.t)
| NotFetched (error : string).

Section Client.
Variable http_get : string -> ApiReply Subscription.t.
Variable http_post : string -> ApiReply string.
Variable now : Z.

(** [getSubscription(subscriptionId)] *)
Definition getSubscription (subscriptionId : string) : list Call * SubscriptionResponse :=
  let url := "/subscriptions/" ++ subscriptionId in
  ([HttpGet url],
   match http_get url with
   | Reply data => Fetched data
   | Failed error => NotFetched error
   end).

(** [reprovisionSIM(simId)] *)
Definition reprovisionSIM (simId : string) : list Call * ActionOutcome :=
  let url := "/v1/sims/" ++ simId ++ "/reprovision" in
  ([HttpPost url],
   match http_post url with
   | Reply body =>
       {| success := true; data := ProviderData body; mocked := None |}
   | Failed _ =>
       {| success := true;
          data := Synthesized simId "reprovision_triggered"
                    "SIM reprovisioning initiated (mocked for prototype)" now;
          mocked := Some true |}
   end).
End Client.

End GigsClient.

(** ** The boundary of the fallback reasoner (src/llm/llmHandler.js) *)

Module LLMHandler.

(** The object parsed out of the model's reply. *)
Record Diagnosis : Type := mkDiagnosis
  { diagnosis : string;
    recommendedAction : string;
    confidence : Z;
    reasoning : string;
    userMessage : option string }.

(** The object [diagnose] returns. *)
Record Result : Type := mkResult
  { success : bool;
    error : option string;
    result_diagnosis : Diagnosis }.

Section Handler.
(** Prompt, generation, pattern search and [JSON.parse] taken together:
    the parsed object, or the message of the error thrown on the way. *)
Variable generate_and_parse : Subscription.t -> string -> ApiReply Diagnosis.

(** [diagnose(subscriptionData, userIssue)] *)
Definition diagnose (subscriptionData : Subscription.t) (userIssue : string)
  : list Call * Result :=
  ([GenerateContent],
   match generate_and_parse subscriptionData userIssue with
   | Reply d =>
       {| success := true; error := None; result_diagnosis := d |}
   | Failed msg =>
       {| success := false;
          error := Some msg;
          result_diagnosis :=
            {| diagnosis := "Unable to diagnose automatically";
               recommendedAction := "escalate";
               confidence := 0;
               reasoning := "LLM error: " ++ msg;
               userMessage := None |} |}
   end).
End Handler.

End LLMHandler.

(** ** The orchestrator: [POST /diagnose] (src/unnamed/part_000, second file) *)

Module Server.

(** What the handler talks to, and the clock readings of one request:
    [startTime] and [endTime] for the processing time, and [now], the reading
    the rule engine and the placeholder outcome see. The code reads the
    clock anew at each use; the readings within one evaluation are taken to
    be the same instant. *)
Record World : Type := mkWorld
  { http_get : string -> ApiReply Subscription.t;
    http_post : string -> ApiReply string;
    generate_and_parse : Subscription.t -> string -> ApiReply LLMHandler.Diagnosis;
    startTime : Z;
    now : Z;
    endTime : Z }.

(** [req.body] *)
Record Request : Type := mkRequest
  { subscriptionId : option string;
    userIssue : option string }.

(** The diagnosis object handed to [res.json]. [rule] is set on the rule
    path only, [actionResult] is [None] for [null] and where it is not set. *)
Record DiagnosisBody : Type := mkBody
  { method : string;
    rule : option string;
    body_confidence : Z;
    body_action : string;
    body_message : string;
    body_reasoning : string;
    actionResult : option GigsClient.ActionOutcome;
    apiCalls : list string;
    processingTimeMs : Z }.

(** The bodies the handler sends. [InternalError] is the body of its
    [catch] block, with the message of the error caught. *)
Inductive Body : Type :=
| MissingFields (required : list string)
| FetchError (details : string)
| InternalError (details : string)
| Diagnosed (d : DiagnosisBody).

(** [res.status(code).json(body)]; [res.json] alone answers 200. *)
Record HttpResponse : Type := mkResponse
  { statusCode : Z;
    body : Body }.

(** [`${v}`] for a string property that may be missing. *)
Definition show_prop (v : option string) : string :=
  match v with
  | Some s => s
  | None => "undefined"
  end.

(** [diagnosis.userMessage || diagnosis.diagnosis] *)
Definition message_of (d : LLMHandler.Diagnosis) : string :=
  match LLMHandler.userMessage d with
  | Some m => if String.eqb m "" then LLMHandler.diagnosis d else m
  | None => LLMHandler.diagnosis d
  end.

Definition getSubscription (w : World) := GigsClient.getSubscription (http_get w).
Definition reprovisionSIM (w : World) := GigsClient.reprovisionSIM (http_post w) (now w).
Definition llm_diagnose (w : World) := LLMHandler.diagnose (generate_and_parse w).

(** The rule path, lines 143-170: the action is executed when the matched
    rule asks for [reprovision] and carries a truthy [simId]. *)
Definition rule_path (w : World) (sid : string) (ruleResult : RuleResult)
  : list Call * HttpResponse :=
  let '(calls, actionResult) :=
    match simId ruleResult with
    | Some target =>
        if (String.eqb (action ruleResult) "reprovision" && Js.truthy (Some target))%bool
        then let '(c, r) := reprovisionSIM w target in (c, Some r)
        else ([], None)
    | None => ([], None)
    end in
  (calls,
   {| statusCode := 200;
      body := Diagnosed
        {| method := "rule_engine";
           rule := Some (ruleName ruleResult);
           body_confidence := confidence ruleResult;
           body_action := action ruleResult;
           body_message := message ruleResult;
           body_reasoning := reasoning ruleResult;
           actionResult := actionResult;
           apiCalls :=
             ("GET /subscriptions/" ++ sid)
             :: match actionResult with
                | Some _ => ["POST /sims/" ++ show_prop (simId ruleResult) ++ "/reprovision"]
                | None => []
                end;
           processingTimeMs := endTime w - startTime w |} |}).

(** The reasoner path, lines 172-222. *)
Definition llm_path (w : World) (sid : string) (subscriptionData : Subscription.t)
           (issue : string) : list Call * HttpResponse :=
  let '(c_llm, llmResult) := llm_diagnose w subscriptionData issue in
  if negb (LLMHandler.success llmResult)
  then
    (c_llm,
     {| statusCode := 200;
        body := Diagnosed
          {| method := "llm_failed";
             rule := None;
             body_confidence := 0;
             body_action := "escalate";
             body_message := "Unable to diagnose automatically. A support agent will review your case.";
             body_reasoning := show_prop (LLMHandler.error llmResult);
             actionResult := None;
             apiCalls := ["GET /subscriptions/" ++ sid];
             processingTimeMs := endTime w - startTime w |} |})
  else
    let diagnosis := LLMHandler.result_diagnosis llmResult in
    let sim_id := Js.opt_chain (Subscription.sim subscriptionData) Sim.id in
    (* the [if (diagnosis.confidence >= 80) ... else ...] statement: the
       calls made, the action outcome, and [diagnosis.recommendedAction]
       as the statement leaves it *)
    let '(c_act, actionResult, recommendedAction) :=
      if 80 <=? LLMHandler.confidence diagnosis
      then
        match sim_id with
        | Some target =>
            if (String.eqb (LLMHandler.recommendedAction diagnosis) "reprovision"
                && Js.truthy (Some target))%bool
            then let '(c, r) := reprovisionSIM w target in
                 (c, Some r, LLMHandler.recommendedAction diagnosis)
            else ([], None, LLMHandler.recommendedAction diagnosis)
        | None => ([], None, LLMHandler.recommendedAction diagnosis)
        end
      else ([], None, "escalate") in
    ((c_llm ++ c_act)%list,
     {| statusCode := 200;
        body := Diagnosed
          {| method := "llm";
             rule := None;
             body_confidence := LLMHandler.confidence diagnosis;
             body_action := recommendedAction;
             body_message := message_of diagnosis;
             body_reasoning := LLMHandler.reasoning diagnosis;
             actionResult := actionResult;
             apiCalls :=
               ("GET /subscriptions/" ++ sid)
               :: "POST /models/gemini-2.5-flash:generateContent (Gemini API)"
               :: match actionResult with
                  | Some _ => ["POST /sims/" ++ show_prop sim_id ++ "/reprovision"]
                  | None => []
                  end;
             processingTimeMs := endTime w - startTime w |} |}).

(** A field of [req.body] as the handler meets it: absent, a string, or
    another JSON value (a number, a boolean, an array, an object). Of a
    value that is not a string the handler observes its truthiness and its
    rendering in a template string, and the rule engine finds no
    [toLowerCase] on it. *)
Inductive Field : Type :=
| Absent
| Text (s : string)
| NonString (truthy : bool) (shown : string).

Record RawBody : Type := mkRawBody
  { raw_subscriptionId : Field;
    raw_userIssue : Field }.

(** Truthiness of a field. *)
Definition field_truthy (f : Field) : bool :=
  match f with
  | Absent => false
  | Text s => Js.truthy (Some s)
  | NonString truthy _ => truthy
  end.

(** [`${f}`] *)
Definition field_shown (f : Field) : string :=
  match f with
  | Absent => "undefined"
  | Text s => s
  | NonString _ shown => shown
  end.

(** How a call ends: with a value, or with a thrown error of that message. *)
Inductive Completion (A : Type) : Type :=
| Returned (a : A)
| Thrown (message : string).

Arguments Returned {A} a.
Arguments Thrown {A} message.

(** The array of [evaluate], each rule with whether it reads [userIssue]:
    rules 4 and 7 call [userIssue.toLowerCase()] before they test anything,
    the others never mention [userIssue]. *)
Definition rules_reading : list (RuleEngine.Rule * bool) :=
  [ (RuleEngine.ruleProvisioningStuck, false);
    (RuleEngine.ruleBillingHold, false);
    (RuleEngine.ruleNormalDelay, false);
    (RuleEngine.ruleDeviceConfig, true);
    (RuleEngine.rulePaymentOverdue, false);
    (RuleEngine.ruleSubscriptionEnded, false);
    (RuleEngine.ruleActivationFailed, true) ].

(** The loop of [evaluate] on a [userIssue] that may not be a string: a
    rule that reads it throws a [TypeError] when it is not one. *)
Fixpoint run_rules_on (rs : list (RuleEngine.Rule * bool)) (t : Z)
         (data : Subscription.t) (issue : Field)
  : Completion (option RuleResult) :=
  match rs with
  | [] => Returned None
  | (rule, reads) :: rest =>
      match issue with
      | Text s =>
          match rule t data s with
          | Some result => Returned (Some result)
          | None => run_rules_on rest t data issue
          end
      | _ =>
          if reads
          then Thrown "userIssue.toLowerCase is not a function"
          else
            match rule t data "" with
            | Some result => Returned (Some result)
            | None => run_rules_on rest t data issue
            end
      end
  end.

(** [ruleEngine.evaluate(subscriptionData, userIssue)] as the handler calls
    it, on whatever the body holds. *)
Definition evaluate_field (t : Z) (data : Subscription.t) (issue : Field)
  : Completion (option RuleResult) :=
  run_rules_on rules_reading t data issue.

(** The handler of [POST /diagnose], lines 108-231, on any JSON body: the
    outbound calls it makes, in order, and the response it sends. An error
    thrown in the [try] block is answered by the [catch] block. *)
Definition handler (w : World) (b : RawBody) : list Call * HttpResponse :=
  let subscriptionId := raw_subscriptionId b in
  let userIssue := raw_userIssue b in
  if (negb (field_truthy subscriptionId) || negb (field_truthy userIssue))%bool
  then ([], {| statusCode := 400;
               body := MissingFields ["subscriptionId"; "userIssue"] |})
  else
    let sid := field_shown subscriptionId in
    let '(c_get, subscriptionResponse) := getSubscription w sid in
    match subscriptionResponse with
    | GigsClient.NotFetched e =>
        (c_get, {| statusCode := 500; body := FetchError e |})
    | GigsClient.Fetched subscriptionData =>
        match evaluate_field (now w) subscriptionData userIssue with
        | Thrown message =>
            (c_get, {| statusCode := 500; body := InternalError message |})
        | Returned (Some ruleResult) =>
            let '(c, response) := rule_path w sid ruleResult in
            ((c_get ++ c)%list, response)
        | Returned None =>
            let '(c, response) :=
              llm_path w sid subscriptionData (field_shown userIssue) in
            ((c_get ++ c)%list, response)
        end
    end.

(** A body whose fields are strings or absent. *)
Definition body_of (req : Request) : RawBody :=
  {| raw_subscriptionId :=
       match subscriptionId req with Some s => Text s | None => Absent end;
     raw_userIssue :=
       match userIssue req with Some s => Text s | None => Absent end |}.

(** The handler on a body whose fields are strings or absent, as the
    interface of the service types them. On such a body no statement of the
    [try] block throws. *)
Definition diagnose (w : World) (req : Request) : list Call * HttpResponse :=
  handler w (body_of req).

End Server.

(** ** The enumerations of the specification *)

(** The rule names, in the order of the specification's list. *)
Definition rule_order : list string :=
  [ "provisioning_stuck"; "billing_hold"; "normal_delay"; "device_config";
    "payment_overdue"; "subscription_ended"; "activation_failed" ].

(** The values of [action] the data model enumerates. *)
Definition enumerated_actions : list string :=
  [ "reprovision"; "route_to_payment"; "route_to_payment_restoration";
    "route_to_settings_guide"; "wait"; "inform_only"; "escalate" ].

(** A trace holds a reprovision call when one of its calls is a POST. *)
Definition is_post (c : Call) : bool :=
  match c with
  | HttpPost _ => true
  | _ => false
  end.

Definition reprovision_invoked (trace : list Call) : bool := existsb is_post trace.

(** The placeholder outcome of the specification: a success whose payload is
    made up for SIM [target] at instant [t], and marked as mocked. *)
Definition placeholder (target : string) (t : Z) : GigsClient.ActionOutcome :=
  {| GigsClient.success := true;
     GigsClient.data :=
       GigsClient.Synthesized target "reprovision_triggered"
         "SIM reprovisioning initiated (mocked for prototype)" t;
     GigsClient.mocked := Some true |}.

(** What every object returned by the rule named [name] satisfies. *)
Definition shaped (name : string) (res : RuleResult) : Prop :=
  ruleName res = name /\
  85 <= confidence res <= 100 /\
  In (action res) enumerated_actions.

Definition returns_shaped (r : RuleEngine.Rule) (name : string) : Prop :=
  forall now data text res, r now data text = Some res -> shaped name res.

(** A rule abstains on an input when it returns [null]. *)
Definition abstains (now : Z) (data : Subscription.t) (text : string)
           (r : RuleEngine.Rule) : Prop :=
  r now data text = None.

Ltac rule_shape r :=
  intros now data text res; unfold r;
  match goal with
  | |- (if ?c then _ else _) = _ -> _ => destruct c
  end;
  intros H; inversion H; subst; clear H;
  unfold shaped, enumerated_actions; simpl;
  repeat split; try lia; tauto.

(** Unfolds a rule that tests both statuses, on a record whose SIM is [s]
    (hypothesis [Hsim]), with the SIM's status given by [Hinactive] and the
    subscription's by [Hpending]. *)
Ltac timing_rule r :=
  unfold r;
  match goal with
  | Hsim : Subscription.sim _ = Some _ |- _ => rewrite Hsim
  end;
  simpl RuleEngine.or_empty;
  match goal with
  | Hi : Sim.status _ = Some _, Hp : Subscription.status _ = Some _ |- _ =>
      rewrite Hi, Hp
  end;
  cbn [Js.strict_eq String.eqb Ascii.eqb Bool.eqb andb].

(** ** Concrete records, texts and worlds *)

Module Samples.

Definition minute : Z := 60000.

(** A pending subscription on an inactive SIM, created at instant 0. *)
Definition pending_inactive : Subscription.t :=
  Subscription.mk (Some "pending") (Some 0)
    (Some (Sim.mk (Some "sim_1") (Some "inactive") None)).

(** An active subscription on an active SIM. *)
Definition active_active : Subscription.t :=
  Subscription.mk (Some "active") (Some 0)
    (Some (Sim.mk (Some "sim_1") (Some "active") (Some 0))).

(** A subscription whose [createdAt] is one minute ahead of instant 0. *)
Definition created_in_one_minute : Subscription.t :=
  Subscription.mk (Some "pending") (Some minute)
    (Some (Sim.mk (Some "sim_1") (Some "inactive") None)).

(** Records without the nested [sim] object. *)
Definition restricted_no_sim : Subscription.t :=
  Subscription.mk (Some "restricted") None None.

Definition still_activating : string := "my eSIM is still activating".
Definition says_activation_failed : string := "Activation FAILED again".
Definition vague : string := "it just doesn't work".
Definition shouting : string := "I have NO SERVICE at all".

(** What a reasoner may answer: a reprovision at confidence [c]. *)
Definition proposal (c : Z) : LLMHandler.Diagnosis :=
  LLMHandler.mkDiagnosis "carrier sync error" "reprovision" c
    "API state is ambiguous" (Some "We are looking into it.").

(** A world that serves [data], whose reprovision endpoint answers
    [post] and whose reasoner answers [llm]; the request starts at
    [t - 5] and is answered at [t + 40]. *)
Definition world (data : Subscription.t) (post : ApiReply string)
           (llm : ApiReply LLMHandler.Diagnosis) (t : Z) : Server.World :=
  Server.mkWorld (fun _ => Reply data) (fun _ => post) (fun _ _ => llm)
                 (t - 5) t (t + 40).

Definition endpoint_missing : ApiReply string :=
  Failed "Request failed with status code 404".

Definition request (issue : string) : Server.Request :=
  Server.mkRequest (Some "sub_1") (Some issue).

End Samples.

(** ** The reasoner's reply parser (src/llm/llmHandler.js, lines 19-37) *)

Module ReplyParser.

Definition open_brace : ascii := "{"%char.
Definition close_brace : ascii := "}"%char.

(** The suffix of [s] that starts at its first '{'. *)
Fixpoint from_first_open (s : string) : option string :=
  match s with
  | EmptyString => None
  | String c t => if Ascii.eqb c open_brace then Some s else from_first_open t
  end.

(** The longest prefix of [s] that ends in '}'. *)
Fixpoint upto_last_close (s : string) : option string :=
  match s with
  | EmptyString => None
  | String c t =>
      match upto_last_close t with
      | Some p => Some (String c p)
      | None => if Ascii.eqb c close_brace then Some (String c EmptyString) else None
      end
  end.

(** [responseText.match(/\{[\s\S]*\}/)], as the matched text [jsonMatch[0]]
    or [None] for [null]. The pattern is tried from the left, so a match
    starts at the first '{'; the star is greedy and matches every character,
    so the match runs to the last '}' behind it. When no '}' follows the
    first '{', none follows a later '{' either. *)
Definition jsonMatch (responseText : string) : option string :=
  match from_first_open responseText with
  | Some (String c rest) =>
      match upto_last_close rest with
      | Some body => Some (String c body)
      | None => None
      end
  | _ => None
  end.

Section Pipeline.
(** Prompt construction, [generateContent] and [response.text()]: the
    model's reply, or the message of the error thrown. *)
Variable generate : Subscription.t -> string -> ApiReply string.
(** [JSON.parse] followed by the reads of the parsed object's fields. *)
Variable json_parse : string -> ApiReply LLMHandler.Diagnosis.

(** The [try] block of [diagnose] up to [JSON.parse]. *)
Definition generate_and_parse (subscriptionData : Subscription.t) (userIssue : string)
  : ApiReply LLMHandler.Diagnosis :=
  match generate subscriptionData userIssue with
  | Failed msg => Failed msg
  | Reply responseText =>
      match jsonMatch responseText with
      | None => Failed "LLM did not return valid JSON"
      | Some json => json_parse json
      end
  end.

(** [diagnose(subscriptionData, userIssue)] with its parser written out. *)
Definition diagnose (subscriptionData : Subscription.t) (userIssue : string)
  : list Call * LLMHandler.Result :=
  LLMHandler.diagnose generate_and_parse subscriptionData userIssue.
End Pipeline.

End ReplyParser.

(** ** The scenario runner (src/tests/test-scenarios.js) *)

Module TestScenarios.

Record Scenario : Type := mkScenario
  { name : string;
    description : string;
    request : Server.Request;
    expectedMethod : option string;
    expectedRule : option string }.

Definition testScenarios : list Scenario :=
  [ {| name := "Rule Engine - Provisioning Stuck";
       description := "Simulates an eSIM stuck in provisioning for >15 minutes";
       request := Server.mkRequest (Some "sub_test_stuck")
                                   (Some "my eSIM has been stuck for 2 hours");
       expectedMethod := Some "rule_engine";
       expectedRule := Some "provisioning_stuck" |};
    {| name := "Rule Engine - Normal Delay";
       description := "Simulates activation still in normal window (<15 min)";
       request := Server.mkRequest (Some "sub_test_recent")
                                   (Some "my eSIM is still activating");
       expectedMethod := Some "rule_engine";
       expectedRule := Some "normal_delay" |};
    {| name := "Rule Engine - Device Config";
       description := "SIM shows active but user has no service";
       request := Server.mkRequest (Some "sub_test_active")
                                   (Some "I have no service even though it says active");
       expectedMethod := Some "rule_engine";
       expectedRule := Some "device_config" |};
    {| name := "LLM Fallback - Ambiguous Issue";
       description := "Vague user input that requires LLM interpretation";
       request := Server.mkRequest (Some "sub_test_ambiguous")
                                   (Some "it just doesn't work");
       expectedMethod := Some "llm";
       expectedRule := None |};
    {| name := "LLM Fallback - Unknown Error";
       description := "Unknown error code requiring LLM interpretation";
       request := Server.mkRequest (Some "sub_test_error")
                                   (Some "getting a weird error message");
       expectedMethod := Some "llm";
       expectedRule := None |} ].

(** [a !== b] on two string properties that may be missing. *)
Definition differs (a b : option string) : bool :=
  match a, b with
  | Some x, Some y => negb (String.eqb x y)
  | None, None => false
  | _, _ => true
  end.

(** The body of the loop of [runTests] for one scenario: [true] where it
    counts the scenario as passed. [reply] is what [axios.post] gives:
    [response.data], or [Failed] where it throws. *)
Definition verdict (scenario : Scenario) (reply : ApiReply Server.DiagnosisBody) : bool :=
  match reply with
  | Failed _ => false
  | Reply result =>
      if (Js.truthy (expectedMethod scenario) &&
          differs (Some (Server.method result)) (expectedMethod scenario))%bool
      then false
      else if (Js.truthy (expectedRule scenario) &&
               differs (Server.rule result) (expectedRule scenario))%bool
      then false
      else true
  end.

(** The loop of [runTests], started with the counters [passed] and
    [failed]; it returns both counters. *)
Fixpoint run (post : Server.Request -> ApiReply Server.DiagnosisBody)
         (scenarios : list Scenario) (passed failed : nat) : nat * nat :=
  match scenarios with
  | [] => (passed, failed)
  | scenario :: rest =>
      if verdict scenario (post (request scenario))
      then run post rest (S passed) failed
      else run post rest passed (S failed)
  end.

(** [runTests()] against a server that answers as [post]. *)
Definition runTests (post : Server.Request -> ApiReply Server.DiagnosisBody) : nat * nat :=
  run post testScenarios 0%nat 0%nat.

(** [axios.post(`${BASE_URL}/diagnose`, request)] against the handler in
    world [w]: the body of a 2xx answer, and a throw for any other status
    (the handler sends a diagnosis with status 200 only). *)
Definition axios_post (w : Server.World) (req : Server.Request)
  : ApiReply Server.DiagnosisBody :=
  let response := snd (Server.diagnose w req) in
  match Server.body response with
  | Server.Diagnosed result =>
      if ((200 <=? Server.statusCode response) && (Server.statusCode response <? 300))%bool
      then Reply result
      else Failed ("Request failed with status code "
                   ++ Js.show (Server.statusCode response))
  | _ => Failed ("Request failed with status code "
                 ++ Js.show (Server.statusCode response))
  end.

End TestScenarios.

(** ** Further records, replies and worlds *)

Module Cases.

(** A restricted subscription whose SIM is still inactive. *)
Definition restricted_inactive : Subscription.t :=
  Subscription.mk (Some "restricted") (Some 0)
    (Some (Sim.mk (Some "sim_9") (Some "inactive") (Some 0))).

(** A model reply that wraps its object in prose. *)
Definition chatty_reply : string :=
  "Sure! Here is my analysis: {confidence: 90} Let me know if {more} is needed.".

(** A model reply without any object. *)
Definition prose_reply : string := "I cannot tell what is wrong here.".

(** A world that serves [data] and whose model replies [text]; the parser
    of objects is [parse]. *)
Definition world_replying (data : Subscription.t) (text : string)
           (parse : string -> ApiReply LLMHandler.Diagnosis) (t : Z) : Server.World :=
  Server.mkWorld (fun _ => Reply data) (fun _ => Samples.endpoint_missing)
                 (ReplyParser.generate_and_parse (fun _ _ => Reply text) parse)
                 (t - 5) t (t + 40).

(** A world whose provider does not know the subscription. *)
Definition world_unknown (t : Z) : Server.World :=
  Server.mkWorld (fun _ => Failed "subscription not found")
                 (fun _ => Samples.endpoint_missing)
                 (fun _ _ => Failed "not called") (t - 5) t (t + 40).

End Cases.

(** ** Properties of the JavaScript primitives *)

Module JsFacts.

Lemma lower_ascii_idem (c : ascii) :
  Js.lower_ascii (Js.lower_ascii c) = Js.lower_ascii c.
Proof.
  destruct c as [[] [] [] [] [] [] [] []]; reflexivity.
Qed.

Lemma lower_ascii_nonascii (c : ascii) :
  Js.is_ascii (Js.lower_ascii c) = false -> Js.lower_ascii c = c.
Proof.
  destruct c as [[] [] [] [] [] [] [] []]; intros H; try reflexivity; discriminate H.
Qed.

Lemma toLowerCase_kelvin (t : string) :
  Js.toLowerCase (String Js.xE2 (String Js.x84 (String Js.xAA t))) =
  String "k" (Js.toLowerCase t).
Proof. reflexivity. Qed.

Lemma toLowerCase_idot (t : string) :
  Js.toLowerCase (String Js.xC4 (String Js.xB0 t)) =
  String "i" (String Js.xCC (String Js.x87 (Js.toLowerCase t))).
Proof. reflexivity. Qed.

(** Anywhere else [toLowerCase] goes byte by byte. *)
Lemma toLowerCase_plain (c : ascii) (t : string) :
  Js.starts_special (String c t) = false ->
  Js.toLowerCase (String c t) = String (Js.lower_ascii c) (Js.toLowerCase t).
Proof.
  destruct t as [| c2 t2]; [reflexivity |].
  cbn [Js.starts_special Js.toLowerCase]. intros H.
  apply orb_false_iff in H. destruct H as [H1 H2]. rewrite H1.
  destruct t2 as [| c3 t3]; [reflexivity |]. now rewrite H2.
Qed.

Lemma starts_special_true (s : string) :
  Js.starts_special s = true ->
  (exists t, s = String Js.xC4 (String Js.xB0 t)) \/
  (exists t, s = String Js.xE2 (String Js.x84 (String Js.xAA t))).
Proof.
  destruct s as [| c1 [| c2 t2]]; cbn [Js.starts_special]; try discriminate.
  intros H. apply orb_true_iff in H. destruct H as [H | H].
  - apply andb_true_iff in H. destruct H as [H1 H2].
    apply Ascii.eqb_eq in H1, H2. subst. left. now exists t2.
  - destruct t2 as [| c3 t3]; [discriminate |].
    apply andb_true_iff in H. destruct H as [H H3].
    apply andb_true_iff in H. destruct H as [H1 H2].
    apply Ascii.eqb_eq in H1, H2, H3. subst. right. now exists t3.
Qed.

Lemma starts_special_head (c : ascii) (r : string) :
  Ascii.eqb c Js.xC4 = false -> Ascii.eqb c Js.xE2 = false ->
  Js.starts_special (String c r) = false.
Proof.
  intros H1 H2. destruct r as [| c2 [| c3 r]]; cbn [Js.starts_special];
    rewrite ?H1, ?H2; reflexivity.
Qed.

Lemma toLowerCase_cases (s : string) :
  s = "" \/
  (exists t, s = String Js.xC4 (String Js.xB0 t)) \/
  (exists t, s = String Js.xE2 (String Js.x84 (String Js.xAA t))) \/
  (exists c t, s = String c t /\ Js.starts_special s = false).
Proof.
  destruct (Js.starts_special s) eqn:H.
  - destruct (starts_special_true s H) as [E | E]; auto.
  - destruct s as [| c t]; [now left |]. right. right. right. now exists c, t.
Qed.

(** A byte above 127 at the head of a lower-cased text was there before. *)
Lemma toLowerCase_head (t x : string) (b : ascii) :
  Js.is_ascii b = false ->
  Js.toLowerCase t = String b x ->
  exists t', t = String b t' /\ x = Js.toLowerCase t'.
Proof.
  intros Hb H.
  destruct (toLowerCase_cases t) as [-> | [[t' ->] | [[t' ->] | (c & t' & -> & Hs)]]].
  - discriminate.
  - rewrite toLowerCase_idot in H. inversion H; subst b. discriminate.
  - rewrite toLowerCase_kelvin in H. inversion H; subst b. discriminate.
  - rewrite (toLowerCase_plain c t' Hs) in H. inversion H; subst.
    rewrite (lower_ascii_nonascii c Hb). now exists t'.
Qed.

Lemma starts_special_lowered (c : ascii) (t : string) :
  Js.starts_special (String c t) = false ->
  Js.starts_special (String (Js.lower_ascii c) (Js.toLowerCase t)) = false.
Proof.
  intros Hs.
  destruct (Js.starts_special (String (Js.lower_ascii c) (Js.toLowerCase t))) eqn:H;
    [| reflexivity].
  exfalso. destruct (starts_special_true _ H) as [[x E] | [x E]]; inversion E as [[Hc Ht]].
  - assert (Ec : c = Js.xC4) by (rewrite <- Hc; symmetry; apply lower_ascii_nonascii;
                                 now rewrite Hc).
    destruct (toLowerCase_head t x Js.xB0 eq_refl Ht) as (t' & -> & _).
    subst c. discriminate Hs.
  - assert (Ec : c = Js.xE2) by (rewrite <- Hc; symmetry; apply lower_ascii_nonascii;
                                 now rewrite Hc).
    destruct (toLowerCase_head t _ Js.x84 eq_refl Ht) as (t' & -> & Ht').
    symmetry in Ht'.
    destruct (toLowerCase_head t' x Js.xAA eq_refl Ht') as (t'' & -> & _).
    subst c. discriminate Hs.
Qed.

Lemma toLowerCase_idem_upto (n : nat) :
  forall s, (String.length s <= n)%nat ->
            Js.toLowerCase (Js.toLowerCase s) = Js.toLowerCase s.
Proof.
  induction n as [| n IH]; intros s Hlen.
  - destruct s; [reflexivity | cbn in Hlen; lia].
  - destruct (toLowerCase_cases s) as [-> | [[t ->] | [[t ->] | (c & t & -> & Hs)]]].
    + reflexivity.
    + rewrite toLowerCase_idot. cbn [String.length] in Hlen.
      rewrite (toLowerCase_plain "i" _ (starts_special_head "i" _ eq_refl eq_refl)).
      rewrite (toLowerCase_plain Js.xCC _ (starts_special_head Js.xCC _ eq_refl eq_refl)).
      rewrite (toLowerCase_plain Js.x87 _ (starts_special_head Js.x87 _ eq_refl eq_refl)).
      rewrite (IH t ltac:(lia)). reflexivity.
    + rewrite toLowerCase_kelvin. cbn [String.length] in Hlen.
      rewrite (toLowerCase_plain "k" _ (starts_special_head "k" _ eq_refl eq_refl)).
      rewrite (IH t ltac:(lia)). reflexivity.
    + rewrite (toLowerCase_plain c t Hs). cbn [String.length] in Hlen.
      rewrite (toLowerCase_plain _ _ (starts_special_lowered c t Hs)).
      rewrite lower_ascii_idem, (IH t ltac:(lia)). reflexivity.
Qed.

Lemma toLowerCase_idem (s : string) :
  Js.toLowerCase (Js.toLowerCase s) = Js.toLowerCase s.
Proof.
  apply (toLowerCase_idem_upto (String.length s)). lia.
Qed.

Lemma strict_eq_spec (v : option string) (lit : string) :
  Js.strict_eq v lit = true <-> v = Some lit.
Proof.
  destruct v as [s |]; simpl.
  - rewrite String.eqb_eq. split; congruence.
  - split; discriminate.
Qed.

Lemma strict_eq_refl (lit : string) : Js.strict_eq (Some lit) lit = true.
Proof. apply strict_eq_spec; reflexivity. Qed.

Lemma strict_eq_other (v : option string) (a b : string) :
  v = Some a -> a <> b -> Js.strict_eq v b = false.
Proof.
  intros -> Hab. simpl. now apply String.eqb_neq.
Qed.

Lemma some_includes_false (kws : list string) (text : string) :
  Js.some_includes kws text = false <->
  forall kw, In kw kws -> Js.includes text kw = false.
Proof.
  unfold Js.some_includes. induction kws as [| k ks IH]; simpl.
  - split; [intros _ kw [] | reflexivity].
  - rewrite orb_false_iff, IH. split.
    + intros [Hk Hks] kw [<- | Hin]; auto.
    + intros H. split; [apply H; now left | intros kw Hin; apply H; now right].
Qed.

Lemma truthy_spec (s : string) : Js.truthy (Some s) = true <-> s <> "".
Proof.
  simpl. rewrite negb_true_iff. apply String.eqb_neq.
Qed.

(** [startsWith] and [includes] find exactly the prefixes and the
    substrings. *)
Lemma startsWith_spec (kw s : string) :
  Js.startsWith s kw = true <-> exists post, s = kw ++ post.
Proof.
  revert s. induction kw as [| k kw' IH]; intros s.
  - destruct s; (split; [intros _ | reflexivity]); eexists; reflexivity.
  - destruct s as [| c s']; cbn [Js.startsWith append].
    + split; [discriminate | intros [post H]; discriminate].
    + rewrite andb_true_iff, Ascii.eqb_eq, IH. split.
      * intros [-> [post ->]]. now exists post.
      * intros [post H]. inversion H; subst. split; [reflexivity | now exists post].
Qed.

Lemma includes_spec (kw s : string) :
  Js.includes s kw = true <-> exists pre post, s = pre ++ kw ++ post.
Proof.
  induction s as [| c t IH].
  - cbn [Js.includes]. rewrite orb_false_r, startsWith_spec. split.
    + intros [post H]. now exists "", post.
    + intros [[| p pre] [post H]]; [| discriminate]. now exists post.
  - cbn [Js.includes]. rewrite orb_true_iff, startsWith_spec, IH. split.
    + intros [[post H] | (pre & post & H)].
      * now exists "", post.
      * exists (String c pre), post. simpl. now rewrite H.
    + intros ([| p pre] & post & H).
      * left. now exists post.
      * right. simpl in H. inversion H; subst. now exists pre, post.
Qed.

End JsFacts.

(** ** Properties of the rule engine *)

Module RuleFacts.
Import RuleEngine.

Lemma ruleProvisioningStuck_shape :
  returns_shaped ruleProvisioningStuck "provisioning_stuck".
Proof. rule_shape ruleProvisioningStuck. Qed.

Lemma ruleBillingHold_shape : returns_shaped ruleBillingHold "billing_hold".
Proof. rule_shape ruleBillingHold. Qed.

Lemma ruleNormalDelay_shape : returns_shaped ruleNormalDelay "normal_delay".
Proof. rule_shape ruleNormalDelay. Qed.

Lemma ruleDeviceConfig_shape : returns_shaped ruleDeviceConfig "device_config".
Proof. rule_shape ruleDeviceConfig. Qed.

Lemma rulePaymentOverdue_shape : returns_shaped rulePaymentOverdue "payment_overdue".
Proof. rule_shape rulePaymentOverdue. Qed.

Lemma ruleSubscriptionEnded_shape :
  returns_shaped ruleSubscriptionEnded "subscription_ended".
Proof. rule_shape ruleSubscriptionEnded. Qed.

Lemma ruleActivationFailed_shape :
  returns_shaped ruleActivationFailed "activation_failed".
Proof. rule_shape ruleActivationFailed. Qed.


Section Loop.
Variables (now : Z) (data : Subscription.t) (text : string).


(** It runs to the end when every rule abstains. *)
Lemma run_rules_none (rs : list Rule) :
  Forall (abstains now data text) rs ->
  run_rules rs now data text = (List.length rs, None).
Proof.
  intros Hrs. induction Hrs as [| q rs' Hq _ IH]; simpl.
  - reflexivity.
  - unfold abstains in Hq. now rewrite Hq, IH.
Qed.

(** Whatever the loop returns was returned by the rule it stopped at,
    and every rule before that one abstained. *)
Lemma run_rules_inv (rs : list Rule) (n : nat) (res : RuleResult) :
  run_rules rs now data text = (n, Some res) ->
  exists pre r post,
    rs = (pre ++ r :: post)%list /\ Forall (abstains now data text) pre /\
    r now data text = Some res /\ n = S (List.length pre).
Proof.
  revert n. induction rs as [| q rs' IH]; simpl; intros n H.
  - discriminate.
  - destruct (q now data text) as [res' |] eqn:Hq.
    + inversion H; subst. exists [], q, rs'. repeat split; auto.
    + destruct (run_rules rs' now data text) as [m r'] eqn:Hrest.
      inversion H; subst.
      destruct (IH m eq_refl) as (pre & r & post & -> & Hpre & Hr & ->).
      exists (q :: pre), r, post. repeat split; auto.
Qed.
End Loop.

(** [evaluate] as the chain of its seven calls. *)
Lemma evaluate_chain (now : Z) (data : Subscription.t) (text : string) :
  evaluate now data text =
  match ruleProvisioningStuck now data text with Some r => Some r | None =>
  match ruleBillingHold now data text with Some r => Some r | None =>
  match ruleNormalDelay now data text with Some r => Some r | None =>
  match ruleDeviceConfig now data text with Some r => Some r | None =>
  match rulePaymentOverdue now data text with Some r => Some r | None =>
  match ruleSubscriptionEnded now data text with Some r => Some r | None =>
  ruleActivationFailed now data text
  end end end end end end.
Proof.
  unfold evaluate, rules, run_rules.
  destruct (ruleProvisioningStuck now data text); [reflexivity |].
  destruct (ruleBillingHold now data text); [reflexivity |].
  destruct (ruleNormalDelay now data text); [reflexivity |].
  destruct (ruleDeviceConfig now data text); [reflexivity |].
  destruct (rulePaymentOverdue now data text); [reflexivity |].
  destruct (ruleSubscriptionEnded now data text); [reflexivity |].
  destruct (ruleActivationFailed now data text); reflexivity.
Qed.

(** Every object [evaluate] returns is shaped as one of the seven rules'. *)
Lemma evaluate_shaped (now : Z) (data : Subscription.t) (text : string)
      (res : RuleResult) :
  evaluate now data text = Some res ->
  exists name, In name rule_order /\ shaped name res.
Proof.
  rewrite evaluate_chain. unfold rule_order.
  destruct (ruleProvisioningStuck now data text) eqn:H1;
    [intros E; inversion E; subst; eexists; split;
     [| eapply ruleProvisioningStuck_shape; eassumption]; simpl; tauto |].
  destruct (ruleBillingHold now data text) eqn:H2;
    [intros E; inversion E; subst; eexists; split;
     [| eapply ruleBillingHold_shape; eassumption]; simpl; tauto |].
  destruct (ruleNormalDelay now data text) eqn:H3;
    [intros E; inversion E; subst; eexists; split;
     [| eapply ruleNormalDelay_shape; eassumption]; simpl; tauto |].
  destruct (ruleDeviceConfig now data text) eqn:H4;
    [intros E; inversion E; subst; eexists; split;
     [| eapply ruleDeviceConfig_shape; eassumption]; simpl; tauto |].
  destruct (rulePaymentOverdue now data text) eqn:H5;
    [intros E; inversion E; subst; eexists; split;
     [| eapply rulePaymentOverdue_shape; eassumption]; simpl; tauto |].
  destruct (ruleSubscriptionEnded now data text) eqn:H6;
    [intros E; inversion E; subst; eexists; split;
     [| eapply ruleSubscriptionEnded_shape; eassumption]; simpl; tauto |].
  intros H7. eexists; split;
    [| eapply ruleActivationFailed_shape; eassumption]; simpl; tauto.
Qed.

End RuleFacts.

(** ** The handler on typed bodies *)

Module ServerFacts.
Import RuleEngine RuleFacts Server.

(** On a string the loop that may throw is the loop of [evaluate]. *)
Lemma evaluate_field_text (t : Z) (data : Subscription.t) (s : string) :
  evaluate_field t data (Text s) = Returned (evaluate t data s).
Proof.
  rewrite evaluate_chain. unfold evaluate_field, rules_reading, run_rules_on.
  destruct (ruleProvisioningStuck t data s); [reflexivity |].
  destruct (ruleBillingHold t data s); [reflexivity |].
  destruct (ruleNormalDelay t data s); [reflexivity |].
  destruct (ruleDeviceConfig t data s); [reflexivity |].
  destruct (rulePaymentOverdue t data s); [reflexivity |].
  destruct (ruleSubscriptionEnded t data s); [reflexivity |].
  destruct (ruleActivationFailed t data s); reflexivity.
Qed.

(** [diagnose] step by step: validation, the fetch, then the rule path or
    the reasoner path; the [catch] block is never entered. *)
Lemma diagnose_eq (w : World) (req : Request) :
  diagnose w req =
  match subscriptionId req, userIssue req with
  | Some sid, Some issue =>
      if (negb (Js.truthy (Some sid)) || negb (Js.truthy (Some issue)))%bool
      then ([], {| statusCode := 400;
                   body := MissingFields ["subscriptionId"; "userIssue"] |})
      else
        let '(c_get, subscriptionResponse) := getSubscription w sid in
        match subscriptionResponse with
        | GigsClient.NotFetched e =>
            (c_get, {| statusCode := 500; body := FetchError e |})
        | GigsClient.Fetched subscriptionData =>
            let '(c, response) :=
              match RuleEngine.evaluate (now w) subscriptionData issue with
              | Some ruleResult => rule_path w sid ruleResult
              | None => llm_path w sid subscriptionData issue
              end in
            ((c_get ++ c)%list, response)
        end
  | _, _ =>
      ([], {| statusCode := 400;
              body := MissingFields ["subscriptionId"; "userIssue"] |})
  end.
Proof.
  unfold diagnose, handler, body_of.
  destruct req as [[sid |] [issue |]];
    cbn [subscriptionId userIssue raw_subscriptionId raw_userIssue
         field_truthy field_shown negb orb];
    try reflexivity.
  - destruct (negb (Js.truthy (Some sid)) || negb (Js.truthy (Some issue)))%bool;
      [reflexivity |].
    destruct (getSubscription w sid) as [c_get [data | e]]; [| reflexivity].
    rewrite evaluate_field_text.
    destruct (evaluate (now w) data issue); reflexivity.
  - now rewrite orb_true_r.
Qed.

End ServerFacts.

(** ** First match wins *)

Module Order.
Import RuleEngine RuleFacts.


(** When the rule at index [i] matches, the loop stops at a rule of index
    at most [i], and returns what that rule returned. *)
Lemma run_rules_earliest (now : Z) (data : Subscription.t) (text : string)
      (rs : list Rule) :
  forall i ri resi,
    nth_error rs i = Some ri ->
    ri now data text = Some resi ->
    exists k rk res,
      (k <= i)%nat /\ nth_error rs k = Some rk /\
      rk now data text = Some res /\
      run_rules rs now data text = (S k, Some res).
Proof.
  induction rs as [| q rs' IH]; intros i ri resi Hi Hri.
  - destruct i; discriminate.
  - simpl. destruct (q now data text) as [resq |] eqn:Hq.
    + exists 0%nat, q, resq. repeat split; auto. lia.
    + destruct i as [| i'].
      * simpl in Hi. inversion Hi; subst. congruence.
      * simpl in Hi.
        destruct (IH i' ri resi Hi Hri) as (k & rk & res & Hk & Hnth & Hrk & Hrun).
        exists (S k), rk, res. rewrite Hrun. repeat split; auto. lia.
Qed.




End Order.

(** ** Elapsed minutes and the two timing rules *)

Module Timing.
Import RuleEngine RuleFacts.

(** The timestamp [_minutesSinceActivation] starts from. *)
Lemma activation_start_cases (data : Subscription.t) :
  Js.or_else (Subscription.createdAt data)
             (Js.opt_chain (Subscription.sim data) Sim.createdAt) = None <->
  Subscription.createdAt data = None /\
  Js.opt_chain (Subscription.sim data) Sim.createdAt = None.
Proof.
  destruct (Subscription.createdAt data); simpl.
  - split; [discriminate | intros [H _]; discriminate].
  - intuition.
Qed.

Section PendingInactive.
Variables (now : Z) (data : Subscription.t) (text : string) (s : Sim.t).
Hypothesis Hsim : Subscription.sim data = Some s.
Hypothesis Hinactive : Sim.status s = Some "inactive".
Hypothesis Hpending : Subscription.status data = Some "pending".

(** Above 15 elapsed minutes rule 1 matches, so [evaluate] returns
    provisioning_stuck. *)
Lemma above_fifteen_is_stuck :
  15 < _minutesSinceActivation now data ->
  exists res, evaluate now data text = Some res /\
              ruleName res = "provisioning_stuck" /\
              action res = "reprovision" /\ confidence res = 95 /\
              simId res = Sim.id s.
Proof.
  intros Hm. rewrite evaluate_chain. timing_rule ruleProvisioningStuck.
  apply Z.ltb_lt in Hm. rewrite Hm.
  eexists. split; [reflexivity |]. simpl. auto.
Qed.

(** Below 15 elapsed minutes rule 3 matches, so [evaluate] returns
    normal_delay. *)
Lemma below_fifteen_is_normal_delay :
  _minutesSinceActivation now data < 15 ->
  exists res, evaluate now data text = Some res /\
              ruleName res = "normal_delay" /\
              action res = "wait" /\ confidence res = 90.
Proof.
  intros Hm. rewrite evaluate_chain. timing_rule ruleProvisioningStuck.
  assert (H1 : (15 <? _minutesSinceActivation now data) = false)
    by (apply Z.ltb_ge; lia).
  rewrite H1. timing_rule ruleBillingHold. timing_rule ruleNormalDelay.
  apply Z.ltb_lt in Hm. rewrite Hm.
  eexists. split; [reflexivity |]. simpl. auto.
Qed.

(** At exactly 15 elapsed minutes neither timing rule matches: what
    [evaluate] returns is left to the keyword rule 7. *)
Lemma at_fifteen_falls_through :
  _minutesSinceActivation now data = 15 ->
  ruleProvisioningStuck now data text = None /\
  ruleNormalDelay now data text = None /\
  evaluate now data text = ruleActivationFailed now data text.
Proof.
  intros Hm.
  assert (E1 : ruleProvisioningStuck now data text = None)
    by (timing_rule ruleProvisioningStuck; now rewrite Hm).
  assert (E3 : ruleNormalDelay now data text = None)
    by (timing_rule ruleNormalDelay; now rewrite Hm).
  repeat split; auto.
  rewrite evaluate_chain, E1, E3.
  timing_rule ruleBillingHold.
  unfold ruleDeviceConfig. rewrite Hsim; simpl or_empty. rewrite Hinactive.
  cbn [Js.strict_eq String.eqb Ascii.eqb Bool.eqb andb].
  unfold rulePaymentOverdue, ruleSubscriptionEnded. rewrite Hpending.
  reflexivity.
Qed.
End PendingInactive.

(** C1, as stated, fails. On a pending subscription with an inactive SIM
    whose activation started exactly 15 whole minutes before the clock
    reading, the elapsed minutes are 15, rule 1 (> 15) and rule 3 (< 15)
    both abstain, and [evaluate] returns [null], not the normal_delay
    diagnosis. *)
Theorem fifteen_minutes_matches_no_rule :
  _minutesSinceActivation (15 * Samples.minute) Samples.pending_inactive = 15 /\
  ruleProvisioningStuck (15 * Samples.minute) Samples.pending_inactive
                        Samples.still_activating = None /\
  ruleNormalDelay (15 * Samples.minute) Samples.pending_inactive
                  Samples.still_activating = None /\
  evaluate (15 * Samples.minute) Samples.pending_inactive
           Samples.still_activating = None.
Proof.
  repeat split; vm_compute; reflexivity.
Qed.

(** C1, amended. On a pending subscription with an inactive SIM, rule 3 is
    guarded by [minutesElapsed < 15] as its header documents: with fewer
    than 15 whole minutes elapsed [evaluate] returns normal_delay (action
    wait, confidence 90); with exactly 15 neither provisioning_stuck (> 15)
    nor normal_delay (< 15) matches, and [evaluate] returns what the keyword
    rule returns - [null], unless the text holds 'activation failed'. *)
Theorem fifteen_minutes_boundary (now : Z) (data : Subscription.t) (text : string)
        (s : Sim.t) :
  Subscription.sim data = Some s ->
  Sim.status s = Some "inactive" ->
  Subscription.status data = Some "pending" ->
  (_minutesSinceActivation now data < 15 ->
   exists res, evaluate now data text = Some res /\
               ruleName res = "normal_delay" /\
               action res = "wait" /\ confidence res = 90) /\
  (_minutesSinceActivation now data = 15 ->
   ruleProvisioningStuck now data text = None /\
   ruleNormalDelay now data text = None /\
   evaluate now data text = ruleActivationFailed now data text /\
   (Js.includes (Js.toLowerCase text) "activation failed" = false ->
    evaluate now data text = None) /\
   (Js.includes (Js.toLowerCase text) "activation failed" = true ->
    exists res, evaluate now data text = Some res /\
                ruleName res = "activation_failed")).
Proof.
  intros Hsim Hs Hp. split.
  - intros Hm.
    exact (below_fifteen_is_normal_delay now data text s Hsim Hs Hp Hm).
  - intros Hm.
    destruct (at_fifteen_falls_through now data text s Hsim Hs Hp Hm)
      as (H1 & H3 & Heval).
    repeat (split; [assumption |]).
    rewrite Heval.
    unfold ruleActivationFailed, Js.some_includes, activationFailedKeyword.
    cbn [existsb]. rewrite orb_false_r.
    split; intros ->; [reflexivity |].
    eexists. split; reflexivity.
Qed.

Lemma fifteen_minutes_boundary_witness :
  (exists res, evaluate (14 * Samples.minute) Samples.pending_inactive
                        Samples.still_activating = Some res /\
               ruleName res = "normal_delay" /\
               action res = "wait" /\ confidence res = 90) /\
  evaluate (15 * Samples.minute) Samples.pending_inactive
           Samples.still_activating = None.
Proof.
  split.
  - apply (proj1 (fifteen_minutes_boundary (14 * Samples.minute)
                    Samples.pending_inactive Samples.still_activating
                    (Sim.mk (Some "sim_1") (Some "inactive") None)
                    eq_refl eq_refl eq_refl)).
    reflexivity.
  - apply (proj2 (fifteen_minutes_boundary (15 * Samples.minute)
                    Samples.pending_inactive Samples.still_activating
                    (Sim.mk (Some "sim_1") (Some "inactive") None)
                    eq_refl eq_refl eq_refl));
      reflexivity.
Defined.

(** C4, as stated, fails: a [createdAt] one minute ahead of the clock gives
    -1 elapsed minutes. *)
Lemma elapsed_minutes_can_be_negative :
  _minutesSinceActivation 0 Samples.created_in_one_minute = -1 /\
  ~ 0 <= _minutesSinceActivation 0 Samples.created_in_one_minute.
Proof.
  split; [reflexivity | vm_compute; intros H; apply H; reflexivity].
Qed.

(** C4, amended. The elapsed-minutes computation returns exactly 0 when
    both the subscription's and the SIM's [createdAt] are absent; otherwise
    it returns the whole minutes (rounded down) between the activation
    start - the subscription's [createdAt], else the SIM's - and the clock
    reading, which is non-negative whenever the activation start is not
    later than the clock reading. *)
Theorem elapsed_minutes_spec (now : Z) (data : Subscription.t) :
  (Subscription.createdAt data = None ->
   Js.opt_chain (Subscription.sim data) Sim.createdAt = None ->
   _minutesSinceActivation now data = 0) /\
  (forall start,
      Js.or_else (Subscription.createdAt data)
                 (Js.opt_chain (Subscription.sim data) Sim.createdAt) = Some start ->
      let m := _minutesSinceActivation now data in
      60000 * m <= now - start < 60000 * (m + 1) /\
      (start <= now -> 0 <= m)).
Proof.
  unfold _minutesSinceActivation. split.
  - intros H1 H2. now rewrite H1, H2.
  - intros start ->. cbv zeta.
    change (1000 * 60) with 60000.
    pose proof (Z.div_mod (now - start) 60000 ltac:(lia)) as Hdiv.
    pose proof (Z.mod_pos_bound (now - start) 60000 ltac:(lia)) as Hmod.
    split; [lia |].
    intros Hle. apply Z.div_pos; lia.
Qed.

Lemma elapsed_minutes_spec_witness :
  _minutesSinceActivation 75000 Samples.restricted_no_sim = 0 /\
  0 <= _minutesSinceActivation (16 * Samples.minute + 1) Samples.pending_inactive.
Proof.
  split.
  - apply (proj1 (elapsed_minutes_spec 75000 Samples.restricted_no_sim));
      reflexivity.
  - apply (proj2 (elapsed_minutes_spec (16 * Samples.minute + 1)
                                       Samples.pending_inactive) 0);
      [reflexivity | vm_compute; discriminate].
Defined.

End Timing.

(** ** Keyword matching, status-only rules and the shape of a result *)

Module Matching.
Import RuleEngine RuleFacts.

(** No rule looks at the text except through [toLowerCase]. *)
Lemma rules_read_lowercase (now : Z) (data : Subscription.t) (text : string) :
  Forall (fun r : Rule => r now data text = r now data (Js.toLowerCase text)) rules.
Proof.
  unfold rules. repeat constructor;
    unfold ruleDeviceConfig, ruleActivationFailed;
    now rewrite ?JsFacts.toLowerCase_idem.
Qed.

Lemma run_rules_ext (now : Z) (data : Subscription.t) (t1 t2 : string)
      (rs : list Rule) :
  Forall (fun r : Rule => r now data t1 = r now data t2) rs ->
  run_rules rs now data t1 = run_rules rs now data t2.
Proof.
  induction 1 as [| r rs' Hr _ IH]; simpl.
  - reflexivity.
  - now rewrite Hr, IH.
Qed.

Lemma evaluate_lowercase (now : Z) (data : Subscription.t) (text : string) :
  evaluate now data text = evaluate now data (Js.toLowerCase text).
Proof.
  unfold evaluate. f_equal. apply run_rules_ext, rules_read_lowercase.
Qed.

(** C7. Keyword matching is case-insensitive and substring-based:
    [evaluate] returns the same on a text and on its lower-casing, hence
    the same on two texts that differ in case only; rule 7 matches exactly
    when 'activation failed' occurs somewhere in the lower-cased text,
    whatever the record; on an active subscription with an active SIM rule 4
    matches exactly when one of its keywords occurs somewhere in the
    lower-cased text, 'I have NO SERVICE at all' gets the
    device-configuration diagnosis (action route_to_settings_guide,
    confidence 85), and 'My ACTIVATION Failed twice' gets the
    activation_failed diagnosis (action reprovision, confidence 85). *)
Theorem evaluate_case_insensitive (now : Z) (data : Subscription.t) (text : string) :
  evaluate now data text = evaluate now data (Js.toLowerCase text) /\
  (forall text', Js.toLowerCase text = Js.toLowerCase text' ->
                 evaluate now data text = evaluate now data text') /\
  (ruleActivationFailed now data text <> None <->
   exists pre post, Js.toLowerCase text = pre ++ "activation failed" ++ post) /\
  (forall s,
      Subscription.sim data = Some s ->
      Sim.status s = Some "active" ->
      Subscription.status data = Some "active" ->
      (ruleDeviceConfig now data text <> None <->
       exists kw pre post,
         In kw noServiceKeywords /\ Js.toLowerCase text = pre ++ kw ++ post) /\
      (exists res,
          evaluate now data "I have NO SERVICE at all" = Some res /\
          ruleName res = "device_config" /\
          action res = "route_to_settings_guide" /\
          confidence res = 85) /\
      (exists res,
          evaluate now data "My ACTIVATION Failed twice" = Some res /\
          ruleName res = "activation_failed" /\
          action res = "reprovision" /\
          confidence res = 85)).
Proof.
  split; [apply evaluate_lowercase |].
  split; [| split].
  - intros text' H.
    now rewrite (evaluate_lowercase now data text),
                (evaluate_lowercase now data text'), H.
  - unfold ruleActivationFailed, Js.some_includes, activationFailedKeyword.
    cbn [existsb]. rewrite orb_false_r.
    destruct (Js.includes (Js.toLowerCase text) "activation failed") eqn:Haf.
    + split; [intros _ | discriminate].
      apply JsFacts.includes_spec in Haf. exact Haf.
    + split; [congruence |].
      intros (pre & post & E).
      assert (Js.includes (Js.toLowerCase text) "activation failed" = true)
        by (apply JsFacts.includes_spec; now exists pre, post).
      congruence.
  - intros s Hsim Hs Hp. split; [| split].
    + timing_rule ruleDeviceConfig.
      destruct (Js.some_includes noServiceKeywords (Js.toLowerCase text)) eqn:Hkw.
      * split; [intros _ | discriminate].
        apply existsb_exists in Hkw. destruct Hkw as (kw & Hin & Hinc).
        apply JsFacts.includes_spec in Hinc. destruct Hinc as (pre & post & E).
        now exists kw, pre, post.
      * split; [congruence |].
        intros (kw & pre & post & Hin & E).
        rewrite JsFacts.some_includes_false in Hkw.
        specialize (Hkw kw Hin).
        assert (Js.includes (Js.toLowerCase text) kw = true)
          by (apply JsFacts.includes_spec; now exists pre, post).
        congruence.
    + rewrite evaluate_chain.
      timing_rule ruleProvisioningStuck. timing_rule ruleBillingHold.
      timing_rule ruleNormalDelay. timing_rule ruleDeviceConfig.
      eexists. split; [reflexivity |]. simpl. auto.
    + rewrite evaluate_chain.
      timing_rule ruleProvisioningStuck. timing_rule ruleBillingHold.
      timing_rule ruleNormalDelay. timing_rule ruleDeviceConfig.
      unfold rulePaymentOverdue, ruleSubscriptionEnded. rewrite Hp.
      eexists. split; [reflexivity |]. simpl. auto.
Qed.

(** Both examples on the active sample, and the Kelvin sign (U+212A), which
    lower-cases to k, inside 'NOT WORKING'. *)
Lemma evaluate_case_insensitive_witness :
  (exists res,
      evaluate 0 Samples.active_active Samples.shouting = Some res /\
      ruleName res = "device_config" /\
      action res = "route_to_settings_guide" /\
      confidence res = 85) /\
  (exists res,
      evaluate 0 Samples.active_active "My ACTIVATION Failed twice" = Some res /\
      ruleName res = "activation_failed" /\
      action res = "reprovision" /\
      confidence res = 85) /\
  ruleDeviceConfig 0 Samples.active_active
    ("NOT WOR" ++ String Js.xE2 (String Js.x84 (String Js.xAA "ING"))) <> None.
Proof.
  pose proof (evaluate_case_insensitive 0 Samples.active_active
                ("NOT WOR" ++ String Js.xE2 (String Js.x84 (String Js.xAA "ING"))))
    as (_ & _ & _ & Hactive).
  destruct (Hactive (Sim.mk (Some "sim_1") (Some "active") (Some 0))
                    eq_refl eq_refl eq_refl) as (Hrule4 & Hservice & Hfailed).
  split; [exact Hservice |]. split; [exact Hfailed |].
  apply (proj2 Hrule4). exists "not working", "", "".
  split; [simpl; tauto | reflexivity].
Defined.

(** On an active subscription with an active SIM, a text that holds none
    of the keywords of rules 4 and 7 makes every rule abstain. *)
Lemma active_without_keywords_abstain
      (now : Z) (data : Subscription.t) (text : string) (s : Sim.t) :
  Subscription.sim data = Some s ->
  Sim.status s = Some "active" ->
  Subscription.status data = Some "active" ->
  (forall kw, In kw noServiceKeywords ->
              Js.includes (Js.toLowerCase text) kw = false) ->
  Js.includes (Js.toLowerCase text) "activation failed" = false ->
  Forall (abstains now data text) rules.
Proof.
  intros Hsim Hs Hp Hkw Haf.
  apply JsFacts.some_includes_false in Hkw.
  unfold rules, abstains. repeat constructor.
  - now timing_rule ruleProvisioningStuck.
  - now timing_rule ruleBillingHold.
  - now timing_rule ruleNormalDelay.
  - timing_rule ruleDeviceConfig. now rewrite Hkw.
  - unfold rulePaymentOverdue. now rewrite Hp.
  - unfold ruleSubscriptionEnded. now rewrite Hp.
  - unfold ruleActivationFailed, Js.some_includes, activationFailedKeyword.
    simpl existsb. now rewrite Haf.
Qed.

(** C9. Whenever [evaluate] returns a diagnosis, its confidence is an
    integer between 0 and 100 (in fact at least 85) and its action is one
    of the seven enumerated values. *)
Theorem evaluate_result_populated
        (now : Z) (data : Subscription.t) (text : string) (res : RuleResult) :
  evaluate now data text = Some res ->
  0 <= confidence res <= 100 /\
  85 <= confidence res /\
  In (action res) enumerated_actions.
Proof.
  intros H. destruct (evaluate_shaped now data text res H) as (name & _ & _ & Hc & Ha).
  repeat split; auto; lia.
Qed.

Lemma evaluate_result_populated_witness :
  exists res,
    evaluate (20 * Samples.minute) Samples.pending_inactive
             Samples.still_activating = Some res /\
    0 <= confidence res <= 100 /\
    85 <= confidence res /\
    In (action res) enumerated_actions.
Proof.
  eexists. split; [reflexivity |].
  apply (evaluate_result_populated (20 * Samples.minute) Samples.pending_inactive
                                   Samples.still_activating).
  reflexivity.
Defined.

Section AbsentSim.
Variables (now : Z) (data : Subscription.t) (text : string).
Hypothesis Hsim : Subscription.sim data = None.

(** Without the nested [sim], the four rules that test the SIM's status
    read it off the empty object and abstain. *)
Lemma sim_rules_abstain :
  ruleProvisioningStuck now data text = None /\
  ruleBillingHold now data text = None /\
  ruleNormalDelay now data text = None /\
  ruleDeviceConfig now data text = None.
Proof.
  unfold ruleProvisioningStuck, ruleBillingHold, ruleNormalDelay, ruleDeviceConfig.
  rewrite Hsim. cbn [or_empty Sim.status Sim.empty Js.strict_eq andb].
  repeat split; reflexivity.
Qed.

Lemma evaluate_without_sim :
  evaluate now data text =
  match rulePaymentOverdue now data text with Some r => Some r | None =>
  match ruleSubscriptionEnded now data text with Some r => Some r | None =>
  ruleActivationFailed now data text
  end end.
Proof.
  destruct sim_rules_abstain as (E1 & E2 & E3 & E4).
  now rewrite evaluate_chain, E1, E2, E3, E4.
Qed.
End AbsentSim.

(** C10. On a record without the nested [sim] object [evaluate] returns
    normally: the rules that inspect the SIM's status substitute the empty
    object and abstain, the elapsed minutes are computed from the
    subscription's own [createdAt] (0 when absent), and the result is that
    of the subscription-status rules and of the keyword rule -
    payment_overdue on status 'restricted', subscription_ended on 'ended',
    otherwise activation_failed when the text holds 'activation failed',
    otherwise [null]. Every read of [sim] in the engine goes through
    [or_empty] or [opt_chain], which are total. *)
Theorem absent_sim_is_tolerated (now : Z) (data : Subscription.t) (text : string) :
  Subscription.sim data = None ->
  (ruleProvisioningStuck now data text = None /\
   ruleBillingHold now data text = None /\
   ruleNormalDelay now data text = None /\
   ruleDeviceConfig now data text = None) /\
  _minutesSinceActivation now data =
    match Subscription.createdAt data with
    | Some start => (now - start) / 60000
    | None => 0
    end /\
  (Subscription.status data = Some "restricted" ->
   exists res, evaluate now data text = Some res /\
               ruleName res = "payment_overdue" /\
               action res = "route_to_payment_restoration") /\
  (Subscription.status data = Some "ended" ->
   exists res, evaluate now data text = Some res /\
               ruleName res = "subscription_ended" /\
               action res = "inform_only") /\
  (Js.strict_eq (Subscription.status data) "restricted" = false ->
   Js.strict_eq (Subscription.status data) "ended" = false ->
   (Js.includes (Js.toLowerCase text) "activation failed" = true ->
    exists res, evaluate now data text = Some res /\
                ruleName res = "activation_failed" /\
                action res = "reprovision") /\
   (Js.includes (Js.toLowerCase text) "activation failed" = false ->
    evaluate now data text = None)).
Proof.
  intros Hsim.
  split; [now apply sim_rules_abstain |].
  split.
  { unfold _minutesSinceActivation. rewrite Hsim.
    destruct (Subscription.createdAt data); reflexivity. }
  rewrite (evaluate_without_sim now data text Hsim).
  unfold rulePaymentOverdue, ruleSubscriptionEnded, ruleActivationFailed,
    Js.some_includes, activationFailedKeyword.
  cbn [existsb]. rewrite orb_false_r.
  split; [| split].
  - intros ->. cbn. eexists. split; [reflexivity |]. split; reflexivity.
  - intros ->. cbn. eexists. split; [reflexivity |]. split; reflexivity.
  - intros -> ->. split.
    + intros ->. eexists. split; [reflexivity |]. split; reflexivity.
    + intros ->. reflexivity.
Qed.

Lemma absent_sim_is_tolerated_witness :
  exists res,
    evaluate 75000 Samples.restricted_no_sim Samples.vague = Some res /\
    ruleName res = "payment_overdue" /\
    action res = "route_to_payment_restoration".
Proof.
  apply (absent_sim_is_tolerated 75000 Samples.restricted_no_sim Samples.vague);
    reflexivity.
Defined.

End Matching.

(** ** The orchestrator *)

Module Orchestration.
Import RuleEngine RuleFacts Server.

(** A request with both fields, whose subscription the provider serves,
    is answered by the rule path or by the reasoner path, after the one
    GET. *)
Lemma diagnose_fetched (w : World) (sid issue : string) (data : Subscription.t) :
  sid <> "" -> issue <> "" ->
  http_get w ("/subscriptions/" ++ sid) = Reply data ->
  diagnose w (mkRequest (Some sid) (Some issue)) =
  let '(c, response) :=
    match evaluate (now w) data issue with
    | Some ruleResult => rule_path w sid ruleResult
    | None => llm_path w sid data issue
    end in
  (HttpGet ("/subscriptions/" ++ sid) :: c, response).
Proof.
  intros Hsid Hissue Hget.
  rewrite ServerFacts.diagnose_eq. cbn [subscriptionId userIssue].
  rewrite (proj2 (JsFacts.truthy_spec sid) Hsid),
          (proj2 (JsFacts.truthy_spec issue) Hissue).
  cbn [negb orb].
  unfold getSubscription, GigsClient.getSubscription. rewrite Hget.
  destruct (evaluate (now w) data issue) as [r |].
  - destruct (rule_path w sid r) as [c response]. reflexivity.
  - destruct (llm_path w sid data issue) as [c response]. reflexivity.
Qed.

(** The rule path calls the reprovision endpoint exactly when the matched
    rule asks for [reprovision] and carries a non-empty [simId]. *)
Lemma rule_path_trace (w : World) (sid : string) (res : RuleResult) :
  fst (rule_path w sid res) =
  match simId res with
  | Some target =>
      if (String.eqb (action res) "reprovision" && negb (String.eqb target ""))%bool
      then [HttpPost ("/v1/sims/" ++ target ++ "/reprovision")]
      else []
  | None => []
  end.
Proof.
  unfold rule_path. destruct (simId res) as [target |]; [| reflexivity].
  cbn [Js.truthy].
  destruct (String.eqb (action res) "reprovision" && negb (String.eqb target ""))%bool;
    reflexivity.
Qed.

(** Rule 7 returns an object without [simId]. *)
Lemma ruleActivationFailed_simId (now : Z) (data : Subscription.t) (text : string)
      (res : RuleResult) :
  ruleActivationFailed now data text = Some res -> simId res = None.
Proof.
  unfold ruleActivationFailed.
  destruct (Js.some_includes activationFailedKeyword (Js.toLowerCase text));
    intros H; inversion H; reflexivity.
Qed.

(** The reasoner path, when the reasoner answers with a parsed object. *)
Lemma llm_path_gate (w : World) (sid issue : string) (data : Subscription.t)
      (d : LLMHandler.Diagnosis) :
  generate_and_parse w data issue = Reply d ->
  exists trace b,
    llm_path w sid data issue =
    (trace, {| statusCode := 200; body := Diagnosed b |}) /\
    method b = "llm" /\
    body_confidence b = LLMHandler.confidence d /\
    (LLMHandler.confidence d < 80 ->
     body_action b = "escalate" /\ actionResult b = None /\
     trace = [GenerateContent]) /\
    (80 <= LLMHandler.confidence d ->
     body_action b = LLMHandler.recommendedAction d).
Proof.
  intros Hllm. unfold llm_path, llm_diagnose, LLMHandler.diagnose.
  rewrite Hllm. cbn [LLMHandler.success negb LLMHandler.result_diagnosis].
  destruct (80 <=? LLMHandler.confidence d) eqn:Hgate.
  - apply Z.leb_le in Hgate.
    destruct (Js.opt_chain (Subscription.sim data) Sim.id) as [target |].
    + destruct (String.eqb (LLMHandler.recommendedAction d) "reprovision"
                && Js.truthy (Some target))%bool.
      * cbn. do 2 eexists. split; [reflexivity |]. cbn.
        repeat split; auto; intros; lia.
      * cbn. do 2 eexists. split; [reflexivity |]. cbn.
        repeat split; auto; intros; lia.
    + cbn. do 2 eexists. split; [reflexivity |]. cbn.
      repeat split; auto; intros; lia.
  - apply Z.leb_gt in Hgate.
    cbn. do 2 eexists. split; [reflexivity |]. cbn.
    repeat split; auto; intros; lia.
Qed.

(** C3. The confidence gate on a reasoner-produced diagnosis: the
    orchestrator answers 200 with the reasoner's confidence; below 80 the
    action is coerced to 'escalate', whatever the reasoner proposed, and no
    action is executed; at 80 or above the proposed action is kept. In
    particular 79 is escalated and 80 keeps the proposal. *)
Theorem confidence_gate (w : World) (sid issue : string) (data : Subscription.t)
        (d : LLMHandler.Diagnosis) :
  sid <> "" -> issue <> "" ->
  http_get w ("/subscriptions/" ++ sid) = Reply data ->
  evaluate (now w) data issue = None ->
  generate_and_parse w data issue = Reply d ->
  exists trace b,
    diagnose w (mkRequest (Some sid) (Some issue)) =
    (trace, {| statusCode := 200; body := Diagnosed b |}) /\
    method b = "llm" /\
    body_confidence b = LLMHandler.confidence d /\
    (LLMHandler.confidence d < 80 ->
     body_action b = "escalate" /\ actionResult b = None /\
     reprovision_invoked trace = false) /\
    (80 <= LLMHandler.confidence d ->
     body_action b = LLMHandler.recommendedAction d) /\
    (LLMHandler.confidence d = 79 -> body_action b = "escalate") /\
    (LLMHandler.confidence d = 80 ->
     body_action b = LLMHandler.recommendedAction d).
Proof.
  intros Hsid Hissue Hget Hnone Hllm.
  rewrite (diagnose_fetched w sid issue data Hsid Hissue Hget), Hnone.
  destruct (llm_path_gate w sid issue data d Hllm)
    as (trace & b & Hpath & Hm & Hc & Hlow & Hhigh).
  rewrite Hpath.
  exists (HttpGet ("/subscriptions/" ++ sid) :: trace), b.
  split; [reflexivity |].
  repeat split; auto.
  - now apply Hlow.
  - now apply Hlow.
  - destruct (Hlow H) as (_ & _ & ->). reflexivity.
  - intros E. apply Hlow. lia.
  - intros E. apply Hhigh. lia.
Qed.

(** A reprovision proposed at confidence 79 is answered as an escalation;
    the same proposal at confidence 80 is kept. *)
Lemma confidence_gate_witness :
  (exists trace b,
      diagnose (Samples.world Samples.active_active Samples.endpoint_missing
                              (Reply (Samples.proposal 79)) 0)
               (Samples.request Samples.vague) =
      (trace, {| statusCode := 200; body := Diagnosed b |}) /\
      body_confidence b = 79 /\ body_action b = "escalate") /\
  (exists trace b,
      diagnose (Samples.world Samples.active_active Samples.endpoint_missing
                              (Reply (Samples.proposal 80)) 0)
               (Samples.request Samples.vague) =
      (trace, {| statusCode := 200; body := Diagnosed b |}) /\
      body_confidence b = 80 /\ body_action b = "reprovision").
Proof.
  split.
  - destruct (confidence_gate
                (Samples.world Samples.active_active Samples.endpoint_missing
                               (Reply (Samples.proposal 79)) 0)
                "sub_1" Samples.vague Samples.active_active (Samples.proposal 79))
      as (trace & b & Hd & _ & Hc & _ & _ & H79 & _);
      [discriminate | discriminate | reflexivity | reflexivity | reflexivity |].
    exists trace, b. split; [exact Hd |]. split; [exact Hc |].
    apply H79. reflexivity.
  - destruct (confidence_gate
                (Samples.world Samples.active_active Samples.endpoint_missing
                               (Reply (Samples.proposal 80)) 0)
                "sub_1" Samples.vague Samples.active_active (Samples.proposal 80))
      as (trace & b & Hd & _ & Hc & _ & _ & _ & H80);
      [discriminate | discriminate | reflexivity | reflexivity | reflexivity |].
    exists trace, b. split; [exact Hd |]. split; [exact Hc |].
    apply H80. reflexivity.
Defined.

(** An object named activation_failed comes from rule 7 and has no
    [simId]. *)
Lemma evaluate_activation_failed_simId (t : Z) (data : Subscription.t)
      (text : string) (res : RuleResult) :
  evaluate t data text = Some res ->
  ruleName res = "activation_failed" ->
  simId res = None.
Proof.
  rewrite evaluate_chain. intros Heval Hname.
  destruct (ruleProvisioningStuck t data text) eqn:H1;
    [inversion Heval; subst;
     destruct (ruleProvisioningStuck_shape _ _ _ _ H1) as [E _]; congruence |].
  destruct (ruleBillingHold t data text) eqn:H2;
    [inversion Heval; subst;
     destruct (ruleBillingHold_shape _ _ _ _ H2) as [E _]; congruence |].
  destruct (ruleNormalDelay t data text) eqn:H3;
    [inversion Heval; subst;
     destruct (ruleNormalDelay_shape _ _ _ _ H3) as [E _]; congruence |].
  destruct (ruleDeviceConfig t data text) eqn:H4;
    [inversion Heval; subst;
     destruct (ruleDeviceConfig_shape _ _ _ _ H4) as [E _]; congruence |].
  destruct (rulePaymentOverdue t data text) eqn:H5;
    [inversion Heval; subst;
     destruct (rulePaymentOverdue_shape _ _ _ _ H5) as [E _]; congruence |].
  destruct (ruleSubscriptionEnded t data text) eqn:H6;
    [inversion Heval; subst;
     destruct (ruleSubscriptionEnded_shape _ _ _ _ H6) as [E _]; congruence |].
  eapply ruleActivationFailed_simId; eassumption.
Qed.

(** Whatever the record, a match of rule 7 makes the orchestrator answer
    with action 'reprovision' after the GET alone. *)
Lemma activation_failed_never_reprovisions
      (w : World) (sid issue : string) (data : Subscription.t) (res : RuleResult) :
  sid <> "" -> issue <> "" ->
  http_get w ("/subscriptions/" ++ sid) = Reply data ->
  evaluate (now w) data issue = Some res ->
  ruleName res = "activation_failed" ->
  fst (diagnose w (mkRequest (Some sid) (Some issue))) =
  [HttpGet ("/subscriptions/" ++ sid)].
Proof.
  intros Hsid Hissue Hget Heval Hname.
  rewrite (diagnose_fetched w sid issue data Hsid Hissue Hget), Heval.
  pose proof (rule_path_trace w sid res) as Htrace.
  rewrite (evaluate_activation_failed_simId _ _ _ _ Heval Hname) in Htrace.
  destruct (rule_path w sid res) as [c response]. simpl in *. now subst c.
Qed.

(** C5, at an active subscription with SIM 'sim_1' and a text that says
    'Activation FAILED again': rule 7 matches with confidence 85 and action
    'reprovision' but without a [simId], and the orchestrator answers 200
    with that action after the GET alone - no reprovision call is made and
    [actionResult] is [null]. *)
Theorem activation_failed_is_not_executed :
  exists res b,
    evaluate 0 Samples.active_active Samples.says_activation_failed = Some res /\
    ruleName res = "activation_failed" /\
    action res = "reprovision" /\
    confidence res = 85 /\
    simId res = None /\
    diagnose (Samples.world Samples.active_active (Reply "reprovisioned")
                            (Failed "not called") 0)
             (Samples.request Samples.says_activation_failed) =
    ([HttpGet "/subscriptions/sub_1"],
     {| statusCode := 200; body := Diagnosed b |}) /\
    body_action b = "reprovision" /\
    actionResult b = None.
Proof.
  do 2 eexists. repeat split; vm_compute; reflexivity.
Qed.

(** The reasoner path starts by calling the reasoner, and answers as
    'llm' or 'llm_failed'. *)
Lemma llm_path_calls_reasoner (w : World) (sid issue : string) (data : Subscription.t) :
  exists rest b,
    llm_path w sid data issue =
    (GenerateContent :: rest, {| statusCode := 200; body := Diagnosed b |}) /\
    (method b = "llm" \/ method b = "llm_failed").
Proof.
  unfold llm_path, llm_diagnose, LLMHandler.diagnose.
  destruct (generate_and_parse w data issue) as [d | msg];
    cbn [LLMHandler.success negb LLMHandler.result_diagnosis].
  - destruct (80 <=? LLMHandler.confidence d).
    + destruct (Js.opt_chain (Subscription.sim data) Sim.id) as [target |].
      * destruct (String.eqb (LLMHandler.recommendedAction d) "reprovision"
                  && Js.truthy (Some target))%bool;
          cbn; do 2 eexists; (split; [reflexivity | now left]).
      * cbn. do 2 eexists. split; [reflexivity | now left].
    + cbn. do 2 eexists. split; [reflexivity | now left].
  - do 2 eexists. split; [reflexivity | now right].
Qed.

(** C6, as stated, fails. 'Activation FAILED again' holds none of the
    device-configuration keywords, in any case, and does not contain
    'activation failed' as written; yet on an active subscription with an
    active SIM [evaluate] returns the activation_failed diagnosis, because
    rule 7 searches the lower-cased text. *)
Lemma mixed_case_activation_failed_matches :
  Subscription.status Samples.active_active = Some "active" /\
  Js.opt_chain (Subscription.sim Samples.active_active) Sim.status = Some "active" /\
  Js.some_includes noServiceKeywords
                   (Js.toLowerCase Samples.says_activation_failed) = false /\
  Js.includes Samples.says_activation_failed "activation failed" = false /\
  evaluate 0 Samples.active_active Samples.says_activation_failed <> None.
Proof.
  repeat split; try reflexivity. vm_compute. discriminate.
Qed.

(** C6, amended. On an active subscription with an active SIM, a text that
    holds, case-insensitively, none of the device-configuration keywords
    and, case-insensitively, not 'activation failed' matches no rule:
    [evaluate] returns [null] after calling all seven rules, and the
    orchestrator, once it has fetched such a record, goes on to call the
    reasoner. *)
Theorem active_without_keywords_is_no_match
        (t : Z) (data : Subscription.t) (text : string) (s : Sim.t) :
  Subscription.sim data = Some s ->
  Sim.status s = Some "active" ->
  Subscription.status data = Some "active" ->
  (forall kw, In kw noServiceKeywords ->
              Js.includes (Js.toLowerCase text) kw = false) ->
  Js.includes (Js.toLowerCase text) "activation failed" = false ->
  evaluate t data text = None /\
  consulted t data text = 7%nat /\
  (forall w sid,
      now w = t -> sid <> "" -> text <> "" ->
      http_get w ("/subscriptions/" ++ sid) = Reply data ->
      exists rest b,
        diagnose w (mkRequest (Some sid) (Some text)) =
        (HttpGet ("/subscriptions/" ++ sid) :: GenerateContent :: rest,
         {| statusCode := 200; body := Diagnosed b |}) /\
        (method b = "llm" \/ method b = "llm_failed")).
Proof.
  intros Hsim Hs Hp Hkw Haf.
  pose proof (Matching.active_without_keywords_abstain t data text s
                Hsim Hs Hp Hkw Haf) as Hall.
  assert (Hnone : evaluate t data text = None)
    by (unfold evaluate; now rewrite (run_rules_none t data text rules Hall)).
  split; [exact Hnone |].
  split; [unfold consulted; now rewrite (run_rules_none t data text rules Hall) |].
  intros w sid Hnow Hsid Htext Hget.
  rewrite (diagnose_fetched w sid text data Hsid Htext Hget), Hnow, Hnone.
  destruct (llm_path_calls_reasoner w sid text data) as (rest & b & -> & Hm).
  now exists rest, b.
Qed.

Lemma active_without_keywords_is_no_match_witness :
  evaluate 0 Samples.active_active Samples.vague = None /\
  exists rest b,
    diagnose (Samples.world Samples.active_active Samples.endpoint_missing
                            (Failed "LLM did not return valid JSON") 0)
             (Samples.request Samples.vague) =
    (HttpGet "/subscriptions/sub_1" :: GenerateContent :: rest,
     {| statusCode := 200; body := Diagnosed b |}) /\
    (method b = "llm" \/ method b = "llm_failed").
Proof.
  destruct (active_without_keywords_is_no_match 0 Samples.active_active Samples.vague
              (Sim.mk (Some "sim_1") (Some "active") (Some 0)))
    as (Hnone & _ & Hcaller); try reflexivity.
  - intros kw Hin. simpl in Hin.
    repeat (destruct Hin as [<- | Hin]; [reflexivity |]). destruct Hin.
  - split; [exact Hnone |].
    apply (Hcaller (Samples.world Samples.active_active Samples.endpoint_missing
                                  (Failed "LLM did not return valid JSON") 0)
                   "sub_1"); [reflexivity | discriminate | discriminate | reflexivity].
Defined.

(** What [evaluate] returns on the stuck sample. *)
Lemma above_fifteen_witness_result :
  exists res,
    evaluate (20 * Samples.minute) Samples.pending_inactive
             Samples.still_activating = Some res /\
    action res = "reprovision" /\
    simId res = Some "sim_1".
Proof.
  eexists. split; [reflexivity |]. split; reflexivity.
Defined.

Lemma reprovision_url_failed (w : World) (target e : string) :
  http_post w ("/v1/sims/" ++ target ++ "/reprovision") = Failed e ->
  reprovisionSIM w target =
  ([HttpPost ("/v1/sims/" ++ target ++ "/reprovision")], placeholder target (now w)).
Proof.
  intros Hpost. unfold reprovisionSIM, GigsClient.reprovisionSIM.
  now rewrite Hpost.
Qed.

(** C8. When the outbound reprovision call for SIM [target] fails,
    [reprovisionSIM] does not propagate the failure: it returns the
    placeholder (success flag true, a synthesized payload, [mocked] true),
    whereas a genuine provider answer carries no [mocked] marker; and the
    orchestrator still answers 200 with the diagnosis and that outcome, on
    the rule path as on the reasoner path. *)
Theorem reprovision_failure_is_masked (w : World) (target e : string) :
  http_post w ("/v1/sims/" ++ target ++ "/reprovision") = Failed e ->
  snd (reprovisionSIM w target) = placeholder target (now w) /\
  GigsClient.success (snd (reprovisionSIM w target)) = true /\
  GigsClient.mocked (snd (reprovisionSIM w target)) = Some true /\
  (forall w' answer,
      http_post w' ("/v1/sims/" ++ target ++ "/reprovision") = Reply answer ->
      snd (reprovisionSIM w' target) =
      {| GigsClient.success := true;
         GigsClient.data := GigsClient.ProviderData answer;
         GigsClient.mocked := None |}) /\
  (forall sid issue data res,
      sid <> "" -> issue <> "" -> target <> "" ->
      http_get w ("/subscriptions/" ++ sid) = Reply data ->
      evaluate (now w) data issue = Some res ->
      action res = "reprovision" ->
      simId res = Some target ->
      exists b,
        diagnose w (mkRequest (Some sid) (Some issue)) =
        ([HttpGet ("/subscriptions/" ++ sid);
          HttpPost ("/v1/sims/" ++ target ++ "/reprovision")],
         {| statusCode := 200; body := Diagnosed b |}) /\
        method b = "rule_engine" /\
        body_action b = "reprovision" /\
        actionResult b = Some (placeholder target (now w))) /\
  (forall sid issue data d,
      sid <> "" -> issue <> "" -> target <> "" ->
      http_get w ("/subscriptions/" ++ sid) = Reply data ->
      evaluate (now w) data issue = None ->
      generate_and_parse w data issue = Reply d ->
      80 <= LLMHandler.confidence d ->
      LLMHandler.recommendedAction d = "reprovision" ->
      Js.opt_chain (Subscription.sim data) Sim.id = Some target ->
      exists b,
        diagnose w (mkRequest (Some sid) (Some issue)) =
        ([HttpGet ("/subscriptions/" ++ sid); GenerateContent;
          HttpPost ("/v1/sims/" ++ target ++ "/reprovision")],
         {| statusCode := 200; body := Diagnosed b |}) /\
        method b = "llm" /\
        body_action b = "reprovision" /\
        actionResult b = Some (placeholder target (now w))).
Proof.
  intros Hpost.
  pose proof (reprovision_url_failed w target e Hpost) as Hmock.
  rewrite Hmock. cbn [snd placeholder GigsClient.success GigsClient.mocked].
  repeat (split; [reflexivity |]).
  split; [| split].
  - intros w' answer Hreply. unfold reprovisionSIM, GigsClient.reprovisionSIM.
    now rewrite Hreply.
  - intros sid issue data res Hsid Hissue Htarget Hget Heval Haction Hid.
    rewrite (diagnose_fetched w sid issue data Hsid Hissue Hget), Heval.
    unfold rule_path. rewrite Hid, Haction.
    rewrite (proj2 (JsFacts.truthy_spec target) Htarget).
    cbn [String.eqb Ascii.eqb Bool.eqb andb]. rewrite Hmock.
    eexists. split; [reflexivity |]. cbn. auto.
  - intros sid issue data d Hsid Hissue Htarget Hget Heval Hllm Hconf Hrec Hid.
    rewrite (diagnose_fetched w sid issue data Hsid Hissue Hget), Heval.
    unfold llm_path, llm_diagnose, LLMHandler.diagnose. rewrite Hllm.
    cbn [LLMHandler.success negb LLMHandler.result_diagnosis].
    apply Z.leb_le in Hconf. rewrite Hconf, Hid, Hrec.
    rewrite (proj2 (JsFacts.truthy_spec target) Htarget).
    cbn [String.eqb Ascii.eqb Bool.eqb andb]. rewrite Hmock.
    eexists. split; [reflexivity |]. cbn. auto.
Qed.

(** A subscription stuck for 20 minutes, against a provider whose
    reprovision endpoint does not exist. *)
Lemma reprovision_failure_is_masked_witness :
  exists b,
    diagnose (Samples.world Samples.pending_inactive Samples.endpoint_missing
                            (Failed "not called") (20 * Samples.minute))
             (Samples.request Samples.still_activating) =
    ([HttpGet "/subscriptions/sub_1"; HttpPost "/v1/sims/sim_1/reprovision"],
     {| statusCode := 200; body := Diagnosed b |}) /\
    method b = "rule_engine" /\
    body_action b = "reprovision" /\
    actionResult b = Some (placeholder "sim_1" (20 * Samples.minute)).
Proof.
  destruct (reprovision_failure_is_masked
              (Samples.world Samples.pending_inactive Samples.endpoint_missing
                             (Failed "not called") (20 * Samples.minute))
              "sim_1" "Request failed with status code 404" eq_refl)
    as (_ & _ & _ & _ & Hrule & _).
  destruct (above_fifteen_witness_result) as (res & Heval & Hact & Hid).
  apply (Hrule "sub_1" Samples.still_activating Samples.pending_inactive res);
    [discriminate | discriminate | discriminate | reflexivity
     | exact Heval | exact Hact | exact Hid].
Defined.

(** When the reasoner fails, the orchestrator answers 200 with the
    escalation at confidence 0 and executes nothing. *)
Lemma reasoner_failure_escalates (w : World) (sid issue msg : string)
      (data : Subscription.t) :
  sid <> "" -> issue <> "" ->
  http_get w ("/subscriptions/" ++ sid) = Reply data ->
  evaluate (now w) data issue = None ->
  generate_and_parse w data issue = Failed msg ->
  exists b,
    diagnose w (mkRequest (Some sid) (Some issue)) =
    ([HttpGet ("/subscriptions/" ++ sid); GenerateContent],
     {| statusCode := 200; body := Diagnosed b |}) /\
    method b = "llm_failed" /\
    body_confidence b = 0 /\
    body_action b = "escalate" /\
    body_reasoning b = msg.
Proof.
  intros Hsid Hissue Hget Heval Hllm.
  rewrite (diagnose_fetched w sid issue data Hsid Hissue Hget), Heval.
  unfold llm_path, llm_diagnose, LLMHandler.diagnose. rewrite Hllm.
  eexists. split; [reflexivity |]. cbn. auto.
Qed.

(** Rule 1, which copies [sim.id] into [simId], is executed: on a pending
    subscription stuck for more than 15 minutes whose SIM has a non-empty
    id, the orchestrator posts the reprovision of that SIM. *)
Lemma stuck_rule_is_executed (w : World) (sid issue target : string)
      (data : Subscription.t) (s : Sim.t) :
  sid <> "" -> issue <> "" -> target <> "" ->
  http_get w ("/subscriptions/" ++ sid) = Reply data ->
  Subscription.sim data = Some s ->
  Sim.status s = Some "inactive" ->
  Sim.id s = Some target ->
  Subscription.status data = Some "pending" ->
  15 < _minutesSinceActivation (now w) data ->
  fst (diagnose w (mkRequest (Some sid) (Some issue))) =
  [HttpGet ("/subscriptions/" ++ sid);
   HttpPost ("/v1/sims/" ++ target ++ "/reprovision")].
Proof.
  intros Hsid Hissue Htarget Hget Hsim Hs Hid Hp Hm.
  destruct (Timing.above_fifteen_is_stuck (now w) data issue s Hsim Hs Hp Hm)
    as (res & Heval & _ & Hact & _ & Hres).
  rewrite (diagnose_fetched w sid issue data Hsid Hissue Hget), Heval.
  pose proof (rule_path_trace w sid res) as Htrace.
  rewrite Hres, Hid, Hact in Htrace.
  apply String.eqb_neq in Htarget. rewrite Htarget in Htrace.
  cbn [String.eqb Ascii.eqb Bool.eqb andb negb] in Htrace.
  destruct (rule_path w sid res) as [c response]. simpl in *. now subst c.
Qed.

End Orchestration.

(** ** What each rule's match says about its input *)

Module RuleTable.
Import RuleEngine RuleFacts.

Lemma ruleProvisioningStuck_inv (now : Z) (data : Subscription.t) (text : string)
      (res : RuleResult) :
  ruleProvisioningStuck now data text = Some res ->
  Sim.status (or_empty (Subscription.sim data)) = Some "inactive" /\
  Subscription.status data = Some "pending" /\
  15 < _minutesSinceActivation now data /\
  ruleName res = "provisioning_stuck" /\
  simId res = Sim.id (or_empty (Subscription.sim data)).
Proof.
  unfold ruleProvisioningStuck.
  destruct (Js.strict_eq (Sim.status (or_empty (Subscription.sim data))) "inactive") eqn:E1;
    [| discriminate].
  destruct (Js.strict_eq (Subscription.status data) "pending") eqn:E2; [| discriminate].
  destruct (15 <? _minutesSinceActivation now data) eqn:E3; [| discriminate].
  cbn [andb]. intros H; inversion H; subst; clear H. cbn.
  apply JsFacts.strict_eq_spec in E1, E2. apply Z.ltb_lt in E3. auto.
Qed.

Lemma ruleBillingHold_inv (now : Z) (data : Subscription.t) (text : string)
      (res : RuleResult) :
  ruleBillingHold now data text = Some res ->
  Sim.status (or_empty (Subscription.sim data)) = Some "inactive" /\
  Subscription.status data = Some "initiated" /\
  ruleName res = "billing_hold" /\ simId res = None.
Proof.
  unfold ruleBillingHold.
  destruct (Js.strict_eq (Sim.status (or_empty (Subscription.sim data))) "inactive") eqn:E1;
    [| discriminate].
  destruct (Js.strict_eq (Subscription.status data) "initiated") eqn:E2; [| discriminate].
  cbn [andb]. intros H; inversion H; subst; clear H. cbn.
  apply JsFacts.strict_eq_spec in E1, E2. auto.
Qed.

Lemma ruleNormalDelay_inv (now : Z) (data : Subscription.t) (text : string)
      (res : RuleResult) :
  ruleNormalDelay now data text = Some res ->
  Sim.status (or_empty (Subscription.sim data)) = Some "inactive" /\
  Subscription.status data = Some "pending" /\
  _minutesSinceActivation now data < 15 /\
  ruleName res = "normal_delay" /\ simId res = None.
Proof.
  unfold ruleNormalDelay.
  destruct (Js.strict_eq (Sim.status (or_empty (Subscription.sim data))) "inactive") eqn:E1;
    [| discriminate].
  destruct (Js.strict_eq (Subscription.status data) "pending") eqn:E2; [| discriminate].
  destruct (_minutesSinceActivation now data <? 15) eqn:E3; [| discriminate].
  cbn [andb]. intros H; inversion H; subst; clear H. cbn.
  apply JsFacts.strict_eq_spec in E1, E2. apply Z.ltb_lt in E3. auto.
Qed.

Lemma ruleDeviceConfig_inv (now : Z) (data : Subscription.t) (text : string)
      (res : RuleResult) :
  ruleDeviceConfig now data text = Some res ->
  Sim.status (or_empty (Subscription.sim data)) = Some "active" /\
  Subscription.status data = Some "active" /\
  Js.some_includes noServiceKeywords (Js.toLowerCase text) = true /\
  ruleName res = "device_config" /\ simId res = None.
Proof.
  unfold ruleDeviceConfig.
  destruct (Js.strict_eq (Sim.status (or_empty (Subscription.sim data))) "active") eqn:E1;
    [| discriminate].
  destruct (Js.strict_eq (Subscription.status data) "active") eqn:E2; [| discriminate].
  destruct (Js.some_includes noServiceKeywords (Js.toLowerCase text)) eqn:E3;
    [| discriminate].
  cbn [andb]. intros H; inversion H; subst; clear H. cbn.
  apply JsFacts.strict_eq_spec in E1, E2. auto.
Qed.

Lemma rulePaymentOverdue_inv (now : Z) (data : Subscription.t) (text : string)
      (res : RuleResult) :
  rulePaymentOverdue now data text = Some res ->
  Subscription.status data = Some "restricted" /\
  ruleName res = "payment_overdue" /\ simId res = None.
Proof.
  unfold rulePaymentOverdue.
  destruct (Js.strict_eq (Subscription.status data) "restricted") eqn:E; [| discriminate].
  intros H; inversion H; subst; clear H. cbn.
  apply JsFacts.strict_eq_spec in E. auto.
Qed.

Lemma ruleSubscriptionEnded_inv (now : Z) (data : Subscription.t) (text : string)
      (res : RuleResult) :
  ruleSubscriptionEnded now data text = Some res ->
  Subscription.status data = Some "ended" /\
  ruleName res = "subscription_ended" /\ simId res = None.
Proof.
  unfold ruleSubscriptionEnded.
  destruct (Js.strict_eq (Subscription.status data) "ended") eqn:E; [| discriminate].
  intros H; inversion H; subst; clear H. cbn.
  apply JsFacts.strict_eq_spec in E. auto.
Qed.

(** The first six rules of the array. *)
Lemma first_six :
  firstn 6 rules =
  [ruleProvisioningStuck; ruleBillingHold; ruleNormalDelay; ruleDeviceConfig;
   rulePaymentOverdue; ruleSubscriptionEnded].
Proof. reflexivity. Qed.

Lemma rules_split : rules = (firstn 6 rules ++ [ruleActivationFailed])%list.
Proof. reflexivity. Qed.

(** Two of the first six rules that match the same input are one rule. *)
Lemma exclusive_matches (now : Z) (data : Subscription.t) (text : string)
        (r r' : Rule) (res res' : RuleResult) :
  In r (firstn 6 rules) -> In r' (firstn 6 rules) ->
  r now data text = Some res ->
  r' now data text = Some res' ->
  r = r' /\ res = res'.
Proof.
  rewrite first_six. cbn [In].
  intros Hr Hr' Hm Hm'.
  repeat match goal with
         | H : _ \/ _ |- _ => destruct H as [H | H]
         | H : False |- _ => destruct H
         end; subst r r';
    try (split; [reflexivity | congruence]);
    exfalso;
    repeat match goal with
           | H : ruleProvisioningStuck _ _ _ = Some _ |- _ =>
               apply ruleProvisioningStuck_inv in H
           | H : ruleBillingHold _ _ _ = Some _ |- _ => apply ruleBillingHold_inv in H
           | H : ruleNormalDelay _ _ _ = Some _ |- _ => apply ruleNormalDelay_inv in H
           | H : ruleDeviceConfig _ _ _ = Some _ |- _ => apply ruleDeviceConfig_inv in H
           | H : rulePaymentOverdue _ _ _ = Some _ |- _ =>
               apply rulePaymentOverdue_inv in H
           | H : ruleSubscriptionEnded _ _ _ = Some _ |- _ =>
               apply ruleSubscriptionEnded_inv in H
           | H : _ /\ _ |- _ => destruct H
           end;
    try congruence; lia.
Qed.

(** X1. The conditions of the first six rules exclude one another: on any
    clock reading, record and text, two of them that both match are the
    same rule. Only rule 7 can match together with another rule. *)
Theorem status_rules_exclusive (now : Z) (data : Subscription.t) (text : string)
        (r r' : Rule) (res res' : RuleResult) :
  In r (firstn 6 rules) -> In r' (firstn 6 rules) ->
  r now data text = Some res ->
  r' now data text = Some res' ->
  r = r' /\ res = res'.
Proof.
  intros Hr Hr' Hm Hm'.
  destruct (exclusive_matches now data text r r' res res' Hr Hr' Hm Hm') as [Er Eres].
  split; assumption.
Qed.

End RuleTable.

(** ** How much of the order matters *)

Module RuleOrder.
Import RuleEngine RuleFacts RuleTable.

Lemma status_rules_exclusive_witness :
  ruleProvisioningStuck = ruleProvisioningStuck /\
  mkRuleResult "provisioning_stuck" 95 "reprovision" (Some "sim_1")
               stuck_message
               "Provisioning has been pending for 20 minutes (>15 min threshold)" =
  mkRuleResult "provisioning_stuck" 95 "reprovision" (Some "sim_1")
               stuck_message
               "Provisioning has been pending for 20 minutes (>15 min threshold)".
Proof.
  apply (status_rules_exclusive (20 * Samples.minute) Samples.pending_inactive
                                Samples.still_activating);
    [ simpl; tauto | simpl; tauto | reflexivity | reflexivity ].
Defined.

Section Loop.
Variables (now : Z) (data : Subscription.t) (text : string).

(** The loop over two arrays, one after the other. *)
Lemma run_rules_app (rs rs' : list Rule) :
  snd (run_rules (rs ++ rs')%list now data text) =
  match snd (run_rules rs now data text) with
  | Some res => Some res
  | None => snd (run_rules rs' now data text)
  end.
Proof.
  induction rs as [| q rs0 IH]; simpl.
  - destruct (run_rules rs' now data text); reflexivity.
  - destruct (q now data text) as [res |]; [reflexivity |].
    destruct (run_rules (rs0 ++ rs')%list now data text) as [n r].
    destruct (run_rules rs0 now data text) as [m r0]. simpl in *. exact IH.
Qed.

Lemma run_rules_snd_none (rs : list Rule) :
  snd (run_rules rs now data text) = None <-> Forall (abstains now data text) rs.
Proof.
  split.
  - induction rs as [| q rs0 IH]; simpl; intros H; [constructor |].
    destruct (q now data text) as [res |] eqn:Hq; [discriminate |].
    destruct (run_rules rs0 now data text) as [n r]. simpl in *.
    constructor; auto.
  - intros H. now rewrite (run_rules_none now data text rs H).
Qed.

(** Where the rules of an array agree on what they return when they match,
    the loop returns an object exactly when some rule returns it. *)
Lemma run_rules_snd_some (rs : list Rule) (res : RuleResult) :
  (forall r r' x x', In r rs -> In r' rs ->
                     r now data text = Some x -> r' now data text = Some x' -> x = x') ->
  snd (run_rules rs now data text) = Some res <->
  exists r, In r rs /\ r now data text = Some res.
Proof.
  intros Huniq. split.
  - destruct (run_rules rs now data text) as [n o] eqn:Hrun. simpl. intros ->.
    destruct (run_rules_inv now data text rs n res Hrun)
      as (pre & r & post & -> & _ & Hr & _).
    exists r. split; [| exact Hr]. apply in_or_app. right. now left.
  - intros (r & Hin & Hr).
    destruct (In_nth_error rs r Hin) as [i Hi].
    destruct (Order.run_rules_earliest now data text rs i r res Hi Hr)
      as (k & rk & res' & _ & Hk & Hrk & Hrun).
    rewrite Hrun. simpl. f_equal.
    apply (Huniq rk r res' res); auto. eapply nth_error_In; eassumption.
Qed.

Lemma run_rules_permutation (rs rs' : list Rule) :
  (forall r r' x x', In r rs -> In r' rs ->
                     r now data text = Some x -> r' now data text = Some x' -> x = x') ->
  Permutation rs rs' ->
  snd (run_rules rs now data text) = snd (run_rules rs' now data text).
Proof.
  intros Huniq Hperm.
  assert (Huniq' : forall r r' x x', In r rs' -> In r' rs' ->
                     r now data text = Some x -> r' now data text = Some x' -> x = x').
  { intros r r' x x' Hr Hr'. apply Huniq; eapply Permutation_in; try eassumption;
      now apply Permutation_sym. }
  destruct (snd (run_rules rs now data text)) as [res |] eqn:Hrun.
  - symmetry. apply (run_rules_snd_some rs' res Huniq').
    apply (run_rules_snd_some rs res Huniq) in Hrun.
    destruct Hrun as (r & Hin & Hr). exists r. split; [| exact Hr].
    eapply Permutation_in; eassumption.
  - symmetry. apply run_rules_snd_none. apply run_rules_snd_none in Hrun.
    eapply Permutation_Forall; eassumption.
Qed.
End Loop.

Lemma first_six_agree (now : Z) (data : Subscription.t) (text : string) :
  forall r r' x x', In r (firstn 6 rules) -> In r' (firstn 6 rules) ->
                    r now data text = Some x -> r' now data text = Some x' -> x = x'.
Proof.
  intros r r' x x' Hr Hr' Hx Hx'.
  now destruct (exclusive_matches now data text r r' x x' Hr Hr' Hx Hx').
Qed.

(** X2. Only the place of rule 7 matters: with the first six rules in any
    order, followed by rule 7, the loop of [evaluate] returns what
    [evaluate] returns, on every clock reading, record and text. *)
Theorem evaluate_order_of_first_six (perm : list Rule) (now : Z)
        (data : Subscription.t) (text : string) :
  Permutation (firstn 6 rules) perm ->
  snd (run_rules (perm ++ [ruleActivationFailed])%list now data text) =
  evaluate now data text.
Proof.
  intros Hperm. unfold evaluate. rewrite rules_split.
  rewrite !run_rules_app.
  now rewrite (run_rules_permutation now data text (firstn 6 rules) perm
                 (first_six_agree now data text) Hperm).
Qed.

(** The six rules in reverse order, on a text that also triggers rule 7. *)
Lemma evaluate_order_of_first_six_witness :
  snd (run_rules
         ([ruleSubscriptionEnded; rulePaymentOverdue; ruleDeviceConfig;
           ruleNormalDelay; ruleBillingHold; ruleProvisioningStuck]
          ++ [ruleActivationFailed])%list
         (20 * Samples.minute) Samples.pending_inactive Samples.says_activation_failed) =
  evaluate (20 * Samples.minute) Samples.pending_inactive Samples.says_activation_failed.
Proof.
  apply evaluate_order_of_first_six.
  rewrite first_six. apply (Permutation_rev
    [ruleProvisioningStuck; ruleBillingHold; ruleNormalDelay; ruleDeviceConfig;
     rulePaymentOverdue; ruleSubscriptionEnded]).
Defined.

(** A match among the first six rules is what the loop of [evaluate] returns. *)
Lemma first_six_returned (now : Z) (data : Subscription.t) (text : string)
        (r : Rule) (res : RuleResult) :
  In r (firstn 6 rules) ->
  r now data text = Some res ->
  evaluate now data text = Some res.
Proof.
  intros Hin Hr. unfold evaluate. rewrite rules_split, run_rules_app.
  assert (H : snd (run_rules (firstn 6 rules) now data text) = Some res).
  { apply run_rules_snd_some; [apply first_six_agree |]. now exists r. }
  now rewrite H.
Qed.

(** X3. None of the first six rules is ever shadowed: whenever one of them
    matches, its object is what [evaluate] returns, whatever the text says
    and wherever the rule stands among the six. *)
Theorem status_rule_is_returned (now : Z) (data : Subscription.t) (text : string)
        (r : Rule) (res : RuleResult) :
  In r (firstn 6 rules) ->
  r now data text = Some res ->
  evaluate now data text = Some res.
Proof.
  intros Hin Hr.
  pose proof (first_six_returned now data text r res Hin Hr) as Heval.
  rewrite Heval. reflexivity.
Qed.

Lemma status_rule_is_returned_witness :
  evaluate 0 Samples.active_active "NOT WORKING since the activation failed" =
  ruleDeviceConfig 0 Samples.active_active "NOT WORKING since the activation failed".
Proof.
  apply (status_rule_is_returned 0 Samples.active_active
           "NOT WORKING since the activation failed" ruleDeviceConfig);
    [ simpl; tauto | reflexivity ].
Defined.

End RuleOrder.

(** ** The clock, the terminal statuses and the SIM of a result *)

Module RuleTiming.
Import RuleEngine RuleFacts RuleTable.

(** X4. A restricted subscription is always diagnosed as payment_overdue
    (confidence 98) and an ended one as subscription_ended (confidence
    100), whatever the SIM object holds or lacks, whatever the text says -
    the keywords of rules 4 and 7 included - and whatever the clock
    reads. *)
Theorem terminal_status_decides (data : Subscription.t) :
  (Subscription.status data = Some "restricted" ->
   forall now text, exists res,
       evaluate now data text = Some res /\
       ruleName res = "payment_overdue" /\
       action res = "route_to_payment_restoration" /\
       confidence res = 98 /\ simId res = None) /\
  (Subscription.status data = Some "ended" ->
   forall now text, exists res,
       evaluate now data text = Some res /\
       ruleName res = "subscription_ended" /\
       action res = "inform_only" /\
       confidence res = 100 /\ simId res = None).
Proof.
  split; intros Hst now text; eexists.
  - split.
    + apply (RuleOrder.first_six_returned now data text rulePaymentOverdue);
        [simpl; tauto |].
      unfold rulePaymentOverdue. rewrite Hst. reflexivity.
    + cbn. repeat split.
  - split.
    + apply (RuleOrder.first_six_returned now data text ruleSubscriptionEnded);
        [simpl; tauto |].
      unfold ruleSubscriptionEnded. rewrite Hst. reflexivity.
    + cbn. repeat split.
Qed.

Lemma terminal_status_decides_witness :
  exists res,
    evaluate 0 Cases.restricted_inactive "no signal, activation failed" = Some res /\
    ruleName res = "payment_overdue" /\
    action res = "route_to_payment_restoration" /\
    confidence res = 98 /\ simId res = None.
Proof.
  apply (proj1 (terminal_status_decides Cases.restricted_inactive)).
  reflexivity.
Defined.

(** The elapsed minutes grow with the clock. *)
Lemma minutes_monotone (now now' : Z) (data : Subscription.t) :
  now <= now' ->
  _minutesSinceActivation now data <= _minutesSinceActivation now' data.
Proof.
  intros Hle. unfold _minutesSinceActivation.
  destruct (Js.or_else (Subscription.createdAt data)
                       (Js.opt_chain (Subscription.sim data) Sim.createdAt));
    [| lia].
  apply Z.div_le_mono; lia.
Qed.

(** X5. The timing rules are monotone in the clock. Once rule 1 matches a
    record, [evaluate] returns provisioning_stuck for that record, with the
    same [simId], at every later clock reading and for every text; and when
    rule 3 matches at some reading, [evaluate] returns normal_delay at every
    earlier reading. *)
Theorem timing_rules_monotone (now now' : Z) (data : Subscription.t)
        (text text' : string) (res : RuleResult) :
  now <= now' ->
  (ruleProvisioningStuck now data text = Some res ->
   exists res', evaluate now' data text' = Some res' /\
                ruleName res' = "provisioning_stuck" /\
                action res' = "reprovision" /\
                simId res' = simId res) /\
  (ruleNormalDelay now' data text = Some res ->
   exists res', evaluate now data text' = Some res' /\
                ruleName res' = "normal_delay" /\
                action res' = "wait").
Proof.
  intros Hle. pose proof (minutes_monotone now now' data Hle) as Hmono. split.
  - intros H. apply ruleProvisioningStuck_inv in H.
    destruct H as (Hs & Hp & Hm & _ & Hid).
    eexists. split.
    + apply (RuleOrder.first_six_returned now' data text' ruleProvisioningStuck);
        [simpl; tauto |].
      unfold ruleProvisioningStuck. rewrite Hs, Hp.
      cbn [Js.strict_eq String.eqb Ascii.eqb Bool.eqb andb].
      assert (E : (15 <? _minutesSinceActivation now' data) = true)
        by (apply Z.ltb_lt; lia).
      rewrite E. reflexivity.
    + cbn. now rewrite Hid.
  - intros H. apply ruleNormalDelay_inv in H.
    destruct H as (Hs & Hp & Hm & _).
    eexists. split.
    + apply (RuleOrder.first_six_returned now data text' ruleNormalDelay);
        [simpl; tauto |].
      unfold ruleNormalDelay. rewrite Hs, Hp.
      cbn [Js.strict_eq String.eqb Ascii.eqb Bool.eqb andb].
      assert (E : (_minutesSinceActivation now data <? 15) = true)
        by (apply Z.ltb_lt; lia).
      rewrite E. reflexivity.
    + cbn. auto.
Qed.

(** Stuck at 16 minutes, hence stuck at 3 hours; in its normal window at 14
    minutes, hence at 2 minutes. *)
Lemma timing_rules_monotone_witness :
  (exists res', evaluate (180 * Samples.minute) Samples.pending_inactive
                         Samples.vague = Some res' /\
                ruleName res' = "provisioning_stuck" /\
                action res' = "reprovision" /\
                simId res' = Some "sim_1") /\
  (exists res', evaluate (2 * Samples.minute) Samples.pending_inactive
                         Samples.vague = Some res' /\
                ruleName res' = "normal_delay" /\
                action res' = "wait").
Proof.
  split.
  - apply (proj1 (timing_rules_monotone (16 * Samples.minute) (180 * Samples.minute)
                    Samples.pending_inactive Samples.still_activating Samples.vague
                    (mkRuleResult "provisioning_stuck" 95 "reprovision" (Some "sim_1")
                       stuck_message
                       "Provisioning has been pending for 16 minutes (>15 min threshold)")
                    ltac:(vm_compute; discriminate))).
    reflexivity.
  - apply (proj2 (timing_rules_monotone (2 * Samples.minute) (14 * Samples.minute)
                    Samples.pending_inactive Samples.still_activating Samples.vague
                    (mkRuleResult "normal_delay" 90 "wait" None
                       "Your activation is in progress. This usually takes 10-15 minutes. Please wait 1 more minute(s) and restart your phone."
                       "Only 14 minutes have elapsed - still within normal activation window")
                    ltac:(vm_compute; discriminate))).
    reflexivity.
Defined.

(** X6. The wait that rule 3 announces: its message asks for
    [15 - elapsed] more minutes, which is at least 1; it is at most 15 when
    the activation start is not later than the clock reading, and exactly 15
    when the record has no timestamp. *)
Theorem normal_delay_remaining (now : Z) (data : Subscription.t) (text : string)
        (res : RuleResult) :
  ruleNormalDelay now data text = Some res ->
  let remaining := 15 - _minutesSinceActivation now data in
  message res =
    "Your activation is in progress. This usually takes 10-15 minutes. Please wait "
    ++ Js.show remaining ++ " more minute(s) and restart your phone." /\
  1 <= remaining /\
  (forall start,
      Js.or_else (Subscription.createdAt data)
                 (Js.opt_chain (Subscription.sim data) Sim.createdAt) = Some start ->
      start <= now -> remaining <= 15) /\
  (Js.or_else (Subscription.createdAt data)
              (Js.opt_chain (Subscription.sim data) Sim.createdAt) = None ->
   remaining = 15).
Proof.
  intros H remaining.
  pose proof (ruleNormalDelay_inv now data text res H) as (_ & _ & Hm & _).
  split.
  { revert H. unfold ruleNormalDelay.
    destruct (Js.strict_eq (Sim.status (or_empty (Subscription.sim data))) "inactive"
              && Js.strict_eq (Subscription.status data) "pending"
              && (_minutesSinceActivation now data <? 15))%bool; [| discriminate].
    intros E; inversion E; reflexivity. }
  split; [unfold remaining; lia |].
  split.
  - intros start Hstart Hle.
    assert (Hpos : 0 <= _minutesSinceActivation now data).
    { unfold _minutesSinceActivation. rewrite Hstart. apply Z.div_pos; lia. }
    unfold remaining. lia.
  - intros Hnone. unfold remaining, _minutesSinceActivation. now rewrite Hnone.
Qed.

End RuleTiming.

(** ** The SIM a result names *)

Module RuleResults.
Import RuleEngine RuleFacts RuleTable.

Lemma normal_delay_remaining_witness :
  1 <= 15 - _minutesSinceActivation (14 * Samples.minute) Samples.pending_inactive.
Proof.
  exact (proj1 (proj2 (RuleTiming.normal_delay_remaining
    (14 * Samples.minute) Samples.pending_inactive Samples.still_activating
    (mkRuleResult "normal_delay" 90 "wait" None
       "Your activation is in progress. This usually takes 10-15 minutes. Please wait 1 more minute(s) and restart your phone."
       "Only 14 minutes have elapsed - still within normal activation window")
    eq_refl))).
Defined.

(** Where the [simId] of a result comes from. *)
Lemma simId_provenance (now : Z) (data : Subscription.t) (text : string)
        (res : RuleResult) (target : string) :
  evaluate now data text = Some res ->
  simId res = Some target ->
  ruleName res = "provisioning_stuck" /\
  action res = "reprovision" /\
  exists s, Subscription.sim data = Some s /\
            Sim.id s = Some target /\
            Sim.status s = Some "inactive" /\
            Subscription.status data = Some "pending".
Proof.
  rewrite evaluate_chain. intros Heval Hid.
  destruct (ruleProvisioningStuck now data text) eqn:H1.
  - inversion Heval; subst.
    pose proof (ruleProvisioningStuck_shape _ _ _ _ H1) as (_ & _ & _).
    assert (Hact : action res = "reprovision").
    { revert H1. unfold ruleProvisioningStuck.
      match goal with |- (if ?c then _ else _) = _ -> _ => destruct c end;
        [| discriminate].
      intros E; inversion E; reflexivity. }
    apply ruleProvisioningStuck_inv in H1.
    destruct H1 as (Hs & Hp & _ & Hname & Hsim).
    split; [exact Hname |]. split; [exact Hact |].
    destruct (Subscription.sim data) as [s |].
    + exists s. cbn [or_empty] in *. rewrite Hsim in Hid. auto.
    + cbn in Hs. discriminate.
  - destruct (ruleBillingHold now data text) eqn:H2;
      [inversion Heval; subst; apply ruleBillingHold_inv in H2;
       destruct H2 as (_ & _ & _ & E); congruence |].
    destruct (ruleNormalDelay now data text) eqn:H3;
      [inversion Heval; subst; apply ruleNormalDelay_inv in H3;
       destruct H3 as (_ & _ & _ & _ & E); congruence |].
    destruct (ruleDeviceConfig now data text) eqn:H4;
      [inversion Heval; subst; apply ruleDeviceConfig_inv in H4;
       destruct H4 as (_ & _ & _ & _ & E); congruence |].
    destruct (rulePaymentOverdue now data text) eqn:H5;
      [inversion Heval; subst; apply rulePaymentOverdue_inv in H5;
       destruct H5 as (_ & _ & E); congruence |].
    destruct (ruleSubscriptionEnded now data text) eqn:H6;
      [inversion Heval; subst; apply ruleSubscriptionEnded_inv in H6;
       destruct H6 as (_ & _ & E); congruence |].
    apply Orchestration.ruleActivationFailed_simId in Heval. congruence.
Qed.

(** X7. A result of [evaluate] names a SIM only when it comes from rule 1,
    and the SIM it names is the one nested in the evaluated record: its
    [simId] is that SIM's [id], the SIM is inactive and the subscription
    pending. No other rule sets [simId]. *)
Theorem simId_is_the_records_sim (now : Z) (data : Subscription.t) (text : string)
        (res : RuleResult) (target : string) :
  evaluate now data text = Some res ->
  simId res = Some target ->
  ruleName res = "provisioning_stuck" /\
  action res = "reprovision" /\
  exists s, Subscription.sim data = Some s /\
            Sim.id s = Some target /\
            Sim.status s = Some "inactive" /\
            Subscription.status data = Some "pending".
Proof.
  intros Heval Hid.
  destruct (simId_provenance now data text res target Heval Hid)
    as (Hname & Hact & s & Hs & Hsid & Hst & Hp).
  split; [exact Hname |]. split; [exact Hact |].
  exists s. repeat split; assumption.
Qed.

Lemma simId_is_the_records_sim_witness :
  exists s, Subscription.sim Samples.pending_inactive = Some s /\
            Sim.id s = Some "sim_1" /\
            Sim.status s = Some "inactive" /\
            Subscription.status Samples.pending_inactive = Some "pending".
Proof.
  apply (simId_is_the_records_sim (20 * Samples.minute) Samples.pending_inactive
           Samples.still_activating
           (mkRuleResult "provisioning_stuck" 95 "reprovision" (Some "sim_1")
              stuck_message
              "Provisioning has been pending for 20 minutes (>15 min threshold)")
           "sim_1"); reflexivity.
Defined.

End RuleResults.

(** ** The handler, case by case *)

Module HandlerCases.
Import RuleEngine RuleFacts Server.

(** [reprovisionSIM] makes one POST, to the reprovision URL of the SIM, and
    its outcome always has the success flag set. *)
Lemma reprovisionSIM_always_succeeds (w : World) (target : string) :
  fst (reprovisionSIM w target) = [HttpPost ("/v1/sims/" ++ target ++ "/reprovision")] /\
  GigsClient.success (snd (reprovisionSIM w target)) = true.
Proof.
  unfold reprovisionSIM, GigsClient.reprovisionSIM. cbn [fst snd].
  destruct (http_post w ("/v1/sims/" ++ target ++ "/reprovision")); auto.
Qed.

(** The rule path: the answer it sends and the calls it makes. *)
Lemma rule_path_cases (w : World) (sid : string) (res : RuleResult) :
  exists b,
    snd (rule_path w sid res) = {| statusCode := 200; body := Diagnosed b |} /\
    method b = "rule_engine" /\
    rule b = Some (ruleName res) /\
    body_confidence b = confidence res /\
    body_action b = action res /\
    hd_error (apiCalls b) = Some ("GET /subscriptions/" ++ sid) /\
    ((exists target,
         simId res = Some target /\ target <> "" /\ action res = "reprovision" /\
         fst (rule_path w sid res) =
           [HttpPost ("/v1/sims/" ++ target ++ "/reprovision")] /\
         actionResult b = Some (snd (reprovisionSIM w target)) /\
         List.length (apiCalls b) = 2%nat) \/
     (fst (rule_path w sid res) = [] /\ actionResult b = None /\
      List.length (apiCalls b) = 1%nat)).
Proof.
  unfold rule_path. destruct (simId res) as [target |].
  - destruct (String.eqb (action res) "reprovision") eqn:Hact; cbn [andb].
    + destruct (Js.truthy (Some target)) eqn:Htruthy.
      * pose proof (reprovisionSIM_always_succeeds w target) as [Hcall _].
        destruct (reprovisionSIM w target) as [c r] eqn:Hrep.
        cbn [fst] in Hcall. subst c.
        eexists. split; [reflexivity |].
        cbn -[reprovisionSIM append]. repeat (split; [reflexivity |]).
        left. exists target. rewrite Hrep. apply String.eqb_eq in Hact.
        apply JsFacts.truthy_spec in Htruthy. repeat split; auto.
      * eexists. split; [reflexivity |].
        cbn -[reprovisionSIM append]. repeat (split; [reflexivity |]). right. auto.
    + eexists. split; [reflexivity |].
      cbn -[reprovisionSIM append]. repeat (split; [reflexivity |]). right. auto.
  - eexists. split; [reflexivity |].
    cbn -[reprovisionSIM append]. repeat (split; [reflexivity |]). right. auto.
Qed.

(** The reasoner path: the answer it sends and the calls it makes. *)
Lemma llm_path_cases (w : World) (sid issue : string) (data : Subscription.t) :
  exists b,
    snd (llm_path w sid data issue) = {| statusCode := 200; body := Diagnosed b |} /\
    hd_error (apiCalls b) = Some ("GET /subscriptions/" ++ sid) /\
    ((exists msg,
         generate_and_parse w data issue = Failed msg /\
         fst (llm_path w sid data issue) = [GenerateContent] /\
         method b = "llm_failed" /\ body_confidence b = 0 /\
         body_action b = "escalate" /\ body_reasoning b = msg /\
         actionResult b = None /\ List.length (apiCalls b) = 1%nat) \/
     (exists d,
         generate_and_parse w data issue = Reply d /\
         method b = "llm" /\ body_confidence b = LLMHandler.confidence d /\
         ((exists target,
              80 <= LLMHandler.confidence d /\
              LLMHandler.recommendedAction d = "reprovision" /\
              Js.opt_chain (Subscription.sim data) Sim.id = Some target /\
              target <> "" /\
              fst (llm_path w sid data issue) =
                [GenerateContent; HttpPost ("/v1/sims/" ++ target ++ "/reprovision")] /\
              body_action b = "reprovision" /\
              actionResult b = Some (snd (reprovisionSIM w target)) /\
              List.length (apiCalls b) = 3%nat) \/
          (fst (llm_path w sid data issue) = [GenerateContent] /\
           actionResult b = None /\ List.length (apiCalls b) = 2%nat /\
           body_action b = if 80 <=? LLMHandler.confidence d
                           then LLMHandler.recommendedAction d else "escalate")))).
Proof.
  unfold llm_path, llm_diagnose, LLMHandler.diagnose.
  destruct (generate_and_parse w data issue) as [d | msg];
    cbn [LLMHandler.success negb LLMHandler.result_diagnosis].
  - destruct (80 <=? LLMHandler.confidence d) eqn:Hgate.
    + destruct (Js.opt_chain (Subscription.sim data) Sim.id) as [target |].
      * destruct (String.eqb (LLMHandler.recommendedAction d) "reprovision") eqn:Hact;
          cbn [andb].
        -- destruct (Js.truthy (Some target)) eqn:Htruthy.
           ++ pose proof (reprovisionSIM_always_succeeds w target) as [Hcall _].
              destruct (reprovisionSIM w target) as [c r] eqn:Hrep.
              cbn [fst] in Hcall. subst c.
              eexists. split; [reflexivity |].
              cbn -[reprovisionSIM append]. split; [reflexivity |].
              right. exists d. repeat (split; [reflexivity |]).
              left. exists target. rewrite Hrep.
              apply String.eqb_eq in Hact. apply JsFacts.truthy_spec in Htruthy.
              apply Z.leb_le in Hgate. repeat split; auto.
           ++ eexists. split; [reflexivity |].
              cbn -[reprovisionSIM append]. split; [reflexivity |].
              right. exists d. repeat (split; [reflexivity |]). right.
              rewrite Hgate. auto.
        -- eexists. split; [reflexivity |].
           cbn -[reprovisionSIM append]. split; [reflexivity |].
           right. exists d. repeat (split; [reflexivity |]). right.
           rewrite Hgate. auto.
      * eexists. split; [reflexivity |].
        cbn -[reprovisionSIM append]. split; [reflexivity |].
        right. exists d. repeat (split; [reflexivity |]). right.
        rewrite Hgate. auto.
    + eexists. split; [reflexivity |].
      cbn -[reprovisionSIM append]. split; [reflexivity |].
      right. exists d. repeat (split; [reflexivity |]). right.
      rewrite Hgate. auto.
  - eexists. split; [reflexivity |].
    cbn -[reprovisionSIM append]. split; [reflexivity |].
    left. exists msg. repeat split.
Qed.

(** The handler: validation, then the fetch, then one of the two paths. *)
Lemma diagnose_cases (w : World) (req : Request) :
  ((Js.truthy (subscriptionId req) && Js.truthy (userIssue req))%bool = false /\
   diagnose w req =
   ([], {| statusCode := 400;
           body := MissingFields ["subscriptionId"; "userIssue"] |})) \/
  (exists sid issue,
      subscriptionId req = Some sid /\ userIssue req = Some issue /\
      sid <> "" /\ issue <> "" /\
      ((exists e,
           http_get w ("/subscriptions/" ++ sid) = Failed e /\
           diagnose w req =
           ([HttpGet ("/subscriptions/" ++ sid)],
            {| statusCode := 500; body := FetchError e |})) \/
       (exists data,
           http_get w ("/subscriptions/" ++ sid) = Reply data /\
           ((exists res,
                evaluate (now w) data issue = Some res /\
                diagnose w req =
                (HttpGet ("/subscriptions/" ++ sid) :: fst (rule_path w sid res),
                 snd (rule_path w sid res))) \/
            (evaluate (now w) data issue = None /\
             diagnose w req =
             (HttpGet ("/subscriptions/" ++ sid) :: fst (llm_path w sid data issue),
              snd (llm_path w sid data issue))))))).
Proof.
  rewrite ServerFacts.diagnose_eq.
  destruct req as [[sid |] [issue |]];
    cbn [subscriptionId userIssue];
    try (left; split; [cbn; rewrite ?andb_false_r; reflexivity | reflexivity]).
  destruct (Js.truthy (Some sid)) eqn:Hsid;
    [| left; split; reflexivity].
  destruct (Js.truthy (Some issue)) eqn:Hissue;
    [| left; split; reflexivity].
  cbn [negb orb]. right. exists sid, issue.
  apply JsFacts.truthy_spec in Hsid, Hissue.
  repeat (split; [auto |]).
  unfold getSubscription, GigsClient.getSubscription.
  destruct (http_get w ("/subscriptions/" ++ sid)) as [data | e].
  - right. exists data. split; [reflexivity |].
    destruct (evaluate (now w) data issue) as [res |].
    + left. exists res. split; [reflexivity |].
      destruct (rule_path w sid res). reflexivity.
    + right. split; [reflexivity |].
      destruct (llm_path w sid data issue). reflexivity.
  - left. exists e. split; reflexivity.
Qed.

End HandlerCases.

(** ** What the handler does and never does *)

Module Handler.
Import RuleEngine RuleFacts Server HandlerCases.

(** X8. Input validation. The handler answers 400 exactly when
    [subscriptionId] or [userIssue] is missing or empty, and then it has
    made no outbound call at all: the body lists the two required fields
    and nothing was fetched, evaluated or executed. *)
Theorem missing_fields_are_rejected (w : World) (req : Request) :
  ((Js.truthy (subscriptionId req) && Js.truthy (userIssue req))%bool = false <->
   statusCode (snd (diagnose w req)) = 400) /\
  (statusCode (snd (diagnose w req)) = 400 ->
   diagnose w req =
   ([], {| statusCode := 400;
           body := MissingFields ["subscriptionId"; "userIssue"] |})).
Proof.
  destruct (diagnose_cases w req)
    as [[Hbad Hd] | (sid & issue & Hsid & Hissue & Hs & Hi & Hrest)].
  - rewrite Hd. cbn. repeat split; auto.
  - assert (Hok : (Js.truthy (subscriptionId req) && Js.truthy (userIssue req))%bool = true).
    { rewrite Hsid, Hissue.
      now rewrite (proj2 (JsFacts.truthy_spec sid) Hs),
                  (proj2 (JsFacts.truthy_spec issue) Hi). }
    assert (Hst : statusCode (snd (diagnose w req)) <> 400).
    { destruct Hrest as [(e & _ & Hd) | (data & _ & [(res & _ & Hd) | (_ & Hd)])];
        rewrite Hd; cbn [snd].
      - cbn. discriminate.
      - destruct (rule_path_cases w sid res) as (b & -> & _). cbn. discriminate.
      - destruct (llm_path_cases w sid issue data) as (b & -> & _). cbn. discriminate. }
    split; [split |]; intros H; [congruence | contradiction | contradiction].
Qed.

Lemma missing_fields_are_rejected_witness :
  diagnose (Cases.world_unknown 0) (mkRequest (Some "sub_1") (Some "")) =
  ([], {| statusCode := 400;
          body := MissingFields ["subscriptionId"; "userIssue"] |}).
Proof.
  apply (proj2 (missing_fields_are_rejected (Cases.world_unknown 0)
                  (mkRequest (Some "sub_1") (Some "")))).
  reflexivity.
Defined.


(** X10. The reasoner is asked exactly when no rule matches: for a request
    with both fields whose subscription was fetched, the trace of outbound
    calls holds the generative call if and only if [evaluate] returned
    [null]. A rule match never reaches the model. *)
Theorem reasoner_called_iff_no_match (w : World) (sid issue : string)
        (data : Subscription.t) :
  sid <> "" -> issue <> "" ->
  http_get w ("/subscriptions/" ++ sid) = Reply data ->
  (In GenerateContent (fst (diagnose w (mkRequest (Some sid) (Some issue)))) <->
   evaluate (now w) data issue = None).
Proof.
  intros Hs Hi Hget.
  rewrite (Orchestration.diagnose_fetched w sid issue data Hs Hi Hget).
  destruct (evaluate (now w) data issue) as [res |] eqn:Heval.
  - destruct (rule_path_cases w sid res)
      as (b & Hb & _ & _ & _ & _ & _ & [(t & _ & _ & _ & Hc & _) | (Hc & _)]);
      destruct (rule_path w sid res) as [c r]; cbn [fst snd] in *; subst c;
      (split; [| discriminate]); cbn [In]; intuition discriminate.
  - destruct (llm_path_cases w sid issue data)
      as (b & Hb & _ & [(m & _ & Hc & _) | (d & _ & _ & _ & [(t & _ & _ & _ & _ & Hc & _) | (Hc & _)])]);
      destruct (llm_path w sid data issue) as [c r]; cbn [fst snd] in *; subst c;
      (split; [reflexivity |]); intros _; cbn [In]; auto.
Qed.

Lemma reasoner_called_iff_no_match_witness :
  In GenerateContent
     (fst (diagnose (Samples.world Samples.active_active Samples.endpoint_missing
                                   (Reply (Samples.proposal 90)) 0)
                    (Samples.request Samples.vague))).
Proof.
  apply (proj2 (reasoner_called_iff_no_match
                  (Samples.world Samples.active_active Samples.endpoint_missing
                                 (Reply (Samples.proposal 90)) 0)
                  "sub_1" Samples.vague Samples.active_active
                  ltac:(discriminate) ltac:(discriminate) eq_refl)).
  reflexivity.
Defined.

(** X11. The order of the outbound calls. Whatever the request and the
    world, the handler makes no call, or the GET of the subscription alone,
    or that GET followed by the generative call, by one reprovision POST,
    or by the generative call and then one reprovision POST. It never
    fetches twice, never asks the model twice and never reprovisions before
    the diagnosis is made. *)
Theorem call_order (w : World) (req : Request) :
  let trace := fst (diagnose w req) in
  trace = [] \/
  exists get,
    trace = [HttpGet get] \/
    trace = [HttpGet get; GenerateContent] \/
    exists post,
      trace = [HttpGet get; HttpPost post] \/
      trace = [HttpGet get; GenerateContent; HttpPost post].
Proof.
  cbv zeta.
  destruct (diagnose_cases w req)
    as [[_ Hd] | (sid & issue & _ & _ & _ & _ & Hrest)].
  - rewrite Hd. now left.
  - right. exists ("/subscriptions/" ++ sid).
    destruct Hrest as [(e & _ & Hd) | (data & _ & [(res & _ & Hd) | (_ & Hd)])];
      rewrite Hd; cbn [fst].
    + now left.
    + destruct (rule_path_cases w sid res)
        as (b & _ & _ & _ & _ & _ & _ & [(t & _ & _ & _ & -> & _) | (-> & _)]).
      * right. right. eexists. left. reflexivity.
      * now left.
    + destruct (llm_path_cases w sid issue data)
        as (b & _ & _ & [(m & _ & -> & _) | (d & _ & _ & _ & [(t & _ & _ & _ & _ & -> & _) | (-> & _)])]).
      * right. now left.
      * right. right. eexists. right. reflexivity.
      * right. now left.
Qed.

End Handler.

(** ** Executed actions and reported calls *)

Module Actions.
Import RuleEngine RuleFacts Server HandlerCases.


Lemma opt_chain_id (data : Subscription.t) (target : string) :
  Js.opt_chain (Subscription.sim data) Sim.id = Some target ->
  exists s, Subscription.sim data = Some s /\ Sim.id s = Some target.
Proof.
  destruct (Subscription.sim data) as [s |]; cbn; [| discriminate].
  intros H. now exists s.
Qed.

(** X12. The handler only ever reprovisions the SIM of the subscription it
    was asked about. Every POST in its trace goes to the reprovision URL of
    the [sim.id] nested in the fetched record, that id is not empty, and the
    answer is then a 200 diagnosis with action 'reprovision', confidence at
    least 80 and the outcome of that very call as [actionResult]. *)
Theorem reprovision_targets_own_sim (w : World) (req : Request) (url : string) :
  In (HttpPost url) (fst (diagnose w req)) ->
  exists sid issue data s target b,
    subscriptionId req = Some sid /\ userIssue req = Some issue /\
    http_get w ("/subscriptions/" ++ sid) = Reply data /\
    Subscription.sim data = Some s /\ Sim.id s = Some target /\ target <> "" /\
    url = "/v1/sims/" ++ target ++ "/reprovision" /\
    snd (diagnose w req) = {| statusCode := 200; body := Diagnosed b |} /\
    body_action b = "reprovision" /\
    80 <= body_confidence b /\
    actionResult b = Some (snd (reprovisionSIM w target)).
Proof.
  destruct (diagnose_cases w req)
    as [[_ Hd] | (sid & issue & Hsid & Hissue & _ & _ & Hrest)].
  { rewrite Hd. intros []. }
  destruct Hrest as [(e & _ & Hd) | (data & Hget & [(res & Heval & Hd) | (Heval & Hd)])];
    rewrite Hd; cbn [fst snd].
  - intros [H | []]. discriminate.
  - destruct (rule_path_cases w sid res)
      as (b & Hb & _ & _ & Hconf & Hact &  _ &
          [(t & Hid & Ht & Hrep & -> & Hres & _) | (-> & _)]).
    + intros [H | [H | []]]; [discriminate |]. inversion H; subst url.
      destruct (RuleResults.simId_provenance (now w) data issue res t Heval Hid)
        as (_ & _ & s & Hs & Hsid' & _).
      destruct (evaluate_shaped (now w) data issue res Heval) as (nm & _ & _ & Hc & _).
      exists sid, issue, data, s, t, b.
      repeat split; auto; try congruence. lia.
    + intros [H | []]. discriminate.
  - destruct (llm_path_cases w sid issue data)
      as (b & Hb & _ &
          [(m & _ & -> & _) |
           (d & _ & _ & Hconf &
            [(t & Hge & _ & Hid & Ht & -> & Hact & Hres & _) | (-> & _)])]).
    + intros [H | [H | []]]; discriminate.
    + intros [H | [H | [H | []]]]; try discriminate. inversion H; subst url.
      destruct (opt_chain_id data t Hid) as (s & Hs & Hsid').
      exists sid, issue, data, s, t, b.
      repeat split; auto. lia.
    + intros [H | [H | []]]; discriminate.
Qed.

Lemma reprovision_targets_own_sim_witness :
  exists sid issue data s target b,
    subscriptionId (Samples.request Samples.still_activating) = Some sid /\
    userIssue (Samples.request Samples.still_activating) = Some issue /\
    http_get (Samples.world Samples.pending_inactive (Reply "done")
                            (Failed "not called") (20 * Samples.minute))
             ("/subscriptions/" ++ sid) = Reply data /\
    Subscription.sim data = Some s /\ Sim.id s = Some target /\ target <> "" /\
    "/v1/sims/sim_1/reprovision" = "/v1/sims/" ++ target ++ "/reprovision" /\
    snd (diagnose (Samples.world Samples.pending_inactive (Reply "done")
                                 (Failed "not called") (20 * Samples.minute))
                  (Samples.request Samples.still_activating)) =
      {| statusCode := 200; body := Diagnosed b |} /\
    body_action b = "reprovision" /\
    80 <= body_confidence b /\
    actionResult b =
      Some (snd (reprovisionSIM
                   (Samples.world Samples.pending_inactive (Reply "done")
                                  (Failed "not called") (20 * Samples.minute))
                   target)).
Proof.
  apply (reprovision_targets_own_sim
           (Samples.world Samples.pending_inactive (Reply "done")
                          (Failed "not called") (20 * Samples.minute))
           (Samples.request Samples.still_activating)
           "/v1/sims/sim_1/reprovision").
  cbn. right. left. reflexivity.
Defined.

(** X13. The confidence threshold holds on every path. In any diagnosis the
    handler sends - by a rule, by the reasoner or after the reasoner's
    failure - a confidence below 80 comes with action 'escalate', no
    [actionResult] and no reprovision call; and an [actionResult] is only
    ever present with action 'reprovision', a confidence of at least 80 and
    a set success flag. *)
Theorem threshold_on_every_path (w : World) (req : Request) (b : DiagnosisBody) :
  body (snd (diagnose w req)) = Diagnosed b ->
  (body_confidence b < 80 ->
   body_action b = "escalate" /\ actionResult b = None /\
   reprovision_invoked (fst (diagnose w req)) = false) /\
  (forall outcome,
      actionResult b = Some outcome ->
      body_action b = "reprovision" /\ 80 <= body_confidence b /\
      GigsClient.success outcome = true /\
      reprovision_invoked (fst (diagnose w req)) = true).
Proof.
  destruct (diagnose_cases w req)
    as [[_ Hd] | (sid & issue & _ & _ & _ & _ & Hrest)].
  { rewrite Hd. cbn. discriminate. }
  destruct Hrest as [(e & _ & Hd) | (data & Hget & [(res & Heval & Hd) | (Heval & Hd)])];
    rewrite Hd; cbn [fst snd].
  - cbn. discriminate.
  - destruct (rule_path_cases w sid res)
      as (b' & -> & _ & _ & Hconf & Hact & _ & Hcase).
    cbn [body]. intros E; inversion E; subst b'.
    destruct (evaluate_shaped (now w) data issue res Heval) as (nm & _ & _ & Hc & _).
    destruct Hcase as [(t & Hid & Ht & Hrep & -> & Hres & _) | (-> & Hres & _)].
    + split; [intros; lia |].
      intros o Ho. rewrite Hres in Ho. inversion Ho; subst o.
      destruct (reprovisionSIM_always_succeeds w t) as [_ Hs].
      repeat split; auto; try congruence. lia.
    + split; [intros; lia |]. intros o Ho. congruence.
  - destruct (llm_path_cases w sid issue data)
      as (b' & -> & _ & Hcase).
    cbn [body]. intros E; inversion E; subst b'.
    destruct Hcase
      as [(m & _ & -> & _ & Hc & Ha & _ & Hres & _) |
          (d & _ & _ & Hconf &
           [(t & Hge & _ & _ & _ & -> & Hact & Hres & _) | (-> & Hres & _ & Hact)])].
    + split; [auto |]. intros o Ho. congruence.
    + split; [intros; lia |].
      intros o Ho. rewrite Hres in Ho. inversion Ho; subst o.
      destruct (reprovisionSIM_always_succeeds w t) as [_ Hs].
      repeat split; auto. lia.
    + split; [| intros o Ho; congruence].
      intros Hlow. rewrite Hconf in Hlow.
      assert (E80 : (80 <=? LLMHandler.confidence d) = false) by (apply Z.leb_gt; lia).
      rewrite E80 in Hact. auto.
Qed.

Lemma threshold_on_every_path_witness :
  body_action
    (mkBody "llm" None 79 "escalate" "We are looking into it." "API state is ambiguous"
            None
            ["GET /subscriptions/sub_1";
             "POST /models/gemini-2.5-flash:generateContent (Gemini API)"]
            45) = "escalate".
Proof.
  refine (proj1 (proj1 (threshold_on_every_path
           (Samples.world Samples.active_active Samples.endpoint_missing
                          (Reply (Samples.proposal 79)) 0)
           (Samples.request Samples.vague) _ eq_refl) _)).
  vm_compute. reflexivity.
Defined.

(** X14. What [apiCalls] reports. In a diagnosis made by a rule or by the
    reasoner, [apiCalls] has one entry per outbound call the handler made,
    the GET of the subscription first. After a failure of the reasoner it
    lists the GET alone, although the generative call was made. *)
Theorem apiCalls_account (w : World) (req : Request) (b : DiagnosisBody) :
  body (snd (diagnose w req)) = Diagnosed b ->
  (exists sid, subscriptionId req = Some sid /\
               hd_error (apiCalls b) = Some ("GET /subscriptions/" ++ sid) /\
               hd_error (fst (diagnose w req)) = Some (HttpGet ("/subscriptions/" ++ sid))) /\
  (method b <> "llm_failed" ->
   List.length (apiCalls b) = List.length (fst (diagnose w req))) /\
  (method b = "llm_failed" ->
   List.length (apiCalls b) = 1%nat /\
   fst (diagnose w req) = [HttpGet ("/subscriptions/" ++ Server.show_prop (subscriptionId req));
                           GenerateContent]).
Proof.
  destruct (diagnose_cases w req)
    as [[_ Hd] | (sid & issue & Hsid & _ & _ & _ & Hrest)].
  { rewrite Hd. cbn. discriminate. }
  destruct Hrest as [(e & _ & Hd) | (data & Hget & [(res & Heval & Hd) | (Heval & Hd)])];
    rewrite Hd, ?Hsid; cbn [fst snd show_prop].
  - cbn. discriminate.
  - destruct (rule_path_cases w sid res)
      as (b' & -> & Hm & _ & _ & _ & Hhd & Hcase).
    cbn [body]. intros E; inversion E; subst b'.
    split; [exists sid; auto |].
    split; [| rewrite Hm; discriminate].
    intros _.
    destruct Hcase as [(t & _ & _ & _ & -> & _ & ->) | (-> & _ & ->)]; reflexivity.
  - destruct (llm_path_cases w sid issue data) as (b' & -> & Hhd & Hcase).
    cbn [body]. intros E; inversion E; subst b'.
    split; [exists sid; auto |].
    destruct Hcase
      as [(m & _ & -> & Hm & _ & _ & _ & _ & ->) |
          (d & _ & Hm & _ &
           [(t & _ & _ & _ & _ & -> & _ & _ & ->) | (-> & _ & -> & _)])].
    + split; [congruence | auto].
    + split; [reflexivity | rewrite Hm; discriminate].
    + split; [reflexivity | rewrite Hm; discriminate].
Qed.

End Actions.

(** ** The reply parser *)

Module ReplyFacts.
Import ReplyParser.

Lemma apiCalls_account_witness :
  List.length
    (Server.apiCalls
       (Server.mkBody "llm_failed" None 0 "escalate"
          "Unable to diagnose automatically. A support agent will review your case."
          "LLM did not return valid JSON" None ["GET /subscriptions/sub_1"] 45)) = 1%nat /\
  fst (Server.diagnose
         (Samples.world Samples.active_active Samples.endpoint_missing
                        (Failed "LLM did not return valid JSON") 0)
         (Samples.request Samples.vague)) =
  [HttpGet "/subscriptions/sub_1"; GenerateContent].
Proof.
  refine (proj2 (proj2 (Actions.apiCalls_account
           (Samples.world Samples.active_active Samples.endpoint_missing
                          (Failed "LLM did not return valid JSON") 0)
           (Samples.request Samples.vague) _ eq_refl)) _).
  reflexivity.
Defined.

Lemma append_assoc (a b c : string) : (a ++ b) ++ c = a ++ b ++ c.
Proof.
  induction a as [| x a IH]; simpl; [reflexivity | now rewrite IH].
Qed.

Lemma startsWith_empty (s : string) : Js.startsWith s "" = true.
Proof. destruct s; reflexivity. Qed.

(** [s.includes(c)] for a one-character [c], one character at a time. *)
Lemma includes_char_cons (ch c : ascii) (t : string) :
  Js.includes (String c t) (String ch "") =
  (Ascii.eqb ch c || Js.includes t (String ch ""))%bool.
Proof.
  cbn [Js.includes Js.startsWith]. now rewrite startsWith_empty, andb_true_r.
Qed.

Lemma includes_char_nil (ch : ascii) : Js.includes "" (String ch "") = false.
Proof. reflexivity. Qed.

Lemma from_first_open_inv (s t : string) :
  from_first_open s = Some t ->
  exists pre rest,
    s = pre ++ t /\ t = String open_brace rest /\ Js.includes pre "{" = false.
Proof.
  induction s as [| c s' IH]; cbn [from_first_open]; [discriminate |].
  destruct (Ascii.eqb c open_brace) eqn:Hc.
  - intros E; inversion E; subst t. apply Ascii.eqb_eq in Hc. subst c.
    now exists "", s'.
  - intros E. destruct (IH E) as (pre & rest & -> & -> & Hpre).
    exists (String c pre), rest. repeat split.
    change "{" with (String open_brace "").
    rewrite includes_char_cons, Ascii.eqb_sym, Hc. exact Hpre.
Qed.

Lemma from_first_open_app (pre r : string) :
  Js.includes pre "{" = false ->
  from_first_open (pre ++ String open_brace r) = Some (String open_brace r).
Proof.
  induction pre as [| c pre IH]; [reflexivity |].
  change "{" with (String open_brace ""). rewrite includes_char_cons.
  intros H. apply orb_false_iff in H. destruct H as [Hc Hpre].
  cbn [append from_first_open]. rewrite Ascii.eqb_sym, Hc. now apply IH.
Qed.

(** Behind any '{' of the text, the suffix found starts no later. *)
Lemma from_first_open_suffix (a r : string) :
  exists x, from_first_open (a ++ String open_brace r) =
            Some (String open_brace (x ++ r)).
Proof.
  induction a as [| c a IH].
  - now exists "".
  - cbn [append from_first_open]. destruct (Ascii.eqb c open_brace) eqn:Hc.
    + apply Ascii.eqb_eq in Hc. subst c.
      exists (a ++ String open_brace ""). now rewrite append_assoc.
    + exact IH.
Qed.

Lemma upto_last_close_none (s : string) :
  upto_last_close s = None <-> Js.includes s "}" = false.
Proof.
  change "}" with (String close_brace "").
  induction s as [| c s' IH]; [split; reflexivity |].
  rewrite includes_char_cons. cbn [upto_last_close].
  destruct (upto_last_close s') as [p |].
  - split; [discriminate |]. intros H. apply orb_false_iff in H.
    destruct H as [_ H]. apply IH in H. discriminate.
  - rewrite (proj1 IH eq_refl), orb_false_r, Ascii.eqb_sym.
    destruct (Ascii.eqb close_brace c); split; auto; discriminate.
Qed.

Lemma upto_last_close_inv (s p : string) :
  upto_last_close s = Some p ->
  exists mid post,
    p = mid ++ "}" /\ s = p ++ post /\ upto_last_close post = None.
Proof.
  revert p. induction s as [| c s' IH]; intros p; cbn [upto_last_close];
    [discriminate |].
  destruct (upto_last_close s') as [p' |] eqn:Hs'.
  - intros E; inversion E; subst p.
    destruct (IH p' eq_refl) as (mid & post & -> & Hs & Hpost).
    exists (String c mid), post. repeat split; auto. cbn. now rewrite <- Hs.
  - destruct (Ascii.eqb c close_brace) eqn:Hc; [| discriminate].
    intros E; inversion E; subst p. apply Ascii.eqb_eq in Hc. subst c.
    now exists "", s'.
Qed.

Lemma upto_last_close_app (mid post : string) :
  upto_last_close post = None ->
  upto_last_close (mid ++ "}" ++ post) = Some (mid ++ "}").
Proof.
  intros Hpost. induction mid as [| c mid IH].
  - cbn. now rewrite Hpost.
  - cbn [append upto_last_close] in *. now rewrite IH.
Qed.

Lemma upto_last_close_some (y z : string) :
  upto_last_close (y ++ "}" ++ z) <> None.
Proof.
  induction y as [| c y IH].
  - cbn. destruct (upto_last_close z); discriminate.
  - cbn [append upto_last_close] in *.
    destruct (upto_last_close (y ++ String "}" z)); [discriminate | contradiction].
Qed.

(** The match, as a decomposition of the reply. *)
Lemma jsonMatch_iff (text j : string) :
  jsonMatch text = Some j <->
  exists pre mid post,
    text = pre ++ "{" ++ mid ++ "}" ++ post /\
    j = "{" ++ mid ++ "}" /\
    Js.includes pre "{" = false /\
    Js.includes post "}" = false.
Proof.
  unfold jsonMatch. split.
  - destruct (from_first_open text) as [[| c rest] |] eqn:Hopen; try discriminate.
    destruct (from_first_open_inv text _ Hopen) as (pre & rest0 & -> & E & Hpre).
    inversion E; subst c rest0.
    destruct (upto_last_close rest) as [body |] eqn:Hclose; [| discriminate].
    intros E'; inversion E'; subst j.
    destruct (upto_last_close_inv rest body Hclose) as (mid & post & -> & -> & Hpost).
    exists pre, mid, post. apply upto_last_close_none in Hpost.
    repeat split; auto. cbn. now rewrite append_assoc.
  - intros (pre & mid & post & -> & -> & Hpre & Hpost).
    change ("{" ++ mid ++ "}" ++ post) with (String open_brace (mid ++ "}" ++ post)).
    rewrite (from_first_open_app pre _ Hpre).
    apply upto_last_close_none in Hpost.
    now rewrite (upto_last_close_app mid post Hpost).
Qed.

(** X15. What the pattern search finds in a reply. The match is the text
    from the first '{' of the reply through its last '}': [jsonMatch]
    returns [j] exactly when the reply is some prose without '{', then the
    text [j] that starts with '{' and ends in '}', then some prose without
    '}'. *)
Theorem jsonMatch_spec (text j : string) :
  jsonMatch text = Some j <->
  exists pre mid post,
    text = pre ++ "{" ++ mid ++ "}" ++ post /\
    j = "{" ++ mid ++ "}" /\
    Js.includes pre "{" = false /\
    Js.includes post "}" = false.
Proof.
  split.
  - intros Hj. apply jsonMatch_iff in Hj.
    destruct Hj as (pre & mid & post & Ht & Ej & Hpre & Hpost).
    exists pre, mid, post. repeat split; assumption.
  - intros (pre & mid & post & Ht & Ej & Hpre & Hpost).
    apply jsonMatch_iff. exists pre, mid, post. repeat split; assumption.
Qed.

Lemma jsonMatch_spec_witness :
  jsonMatch Cases.chatty_reply = Some "{confidence: 90} Let me know if {more}".
Proof.
  apply (proj2 (jsonMatch_spec Cases.chatty_reply
                  "{confidence: 90} Let me know if {more}")).
  exists "Sure! Here is my analysis: ", "confidence: 90} Let me know if {more",
         " is needed.".
  repeat split; reflexivity.
Defined.

(** The replies without a match. *)
Lemma jsonMatch_none_iff (text : string) :
  jsonMatch text = None <->
  forall a b c, text <> a ++ "{" ++ b ++ "}" ++ c.
Proof.
  split.
  - intros Hnone a b c ->. unfold jsonMatch in Hnone.
    destruct (from_first_open_suffix a (b ++ "}" ++ c)) as [x Hx].
    change (a ++ "{" ++ b ++ "}" ++ c)
      with (a ++ String open_brace (b ++ "}" ++ c)) in Hnone.
    rewrite Hx in Hnone. rewrite <- append_assoc in Hnone.
    pose proof (upto_last_close_some (x ++ b) c) as Hsome.
    destruct (upto_last_close ((x ++ b) ++ "}" ++ c)); [discriminate | contradiction].
  - intros Hno. destruct (jsonMatch text) as [j |] eqn:Hj; [| reflexivity].
    apply jsonMatch_iff in Hj. destruct Hj as (pre & mid & post & E & _).
    exfalso. exact (Hno pre mid post E).
Qed.

(** X16. When the pattern search fails. [jsonMatch] returns [null] exactly
    when the reply holds no '{' with a '}' somewhere behind it; a reply
    with any such pair is matched. *)
Theorem jsonMatch_none (text : string) :
  jsonMatch text = None <->
  forall a b c, text <> a ++ "{" ++ b ++ "}" ++ c.
Proof.
  split.
  - intros Hnone a b c. exact (proj1 (jsonMatch_none_iff text) Hnone a b c).
  - intros Hno. apply jsonMatch_none_iff. exact Hno.
Qed.

Lemma jsonMatch_none_witness :
  Cases.prose_reply <> "I cannot tell " ++ "{" ++ "what" ++ "}" ++ " is wrong here.".
Proof.
  apply (proj1 (jsonMatch_none Cases.prose_reply)). reflexivity.
Defined.

End ReplyFacts.

(** ** Greedy matching and the failures of the reasoner *)

Module ReasonerFailures.
Import ReplyParser ReplyFacts RuleEngine Server.

(** X17. The pattern search is greedy. A reply that is one brace-delimited
    text is matched whole, so matching a match returns it again; and a
    reply that holds two brace-delimited texts is matched as a single text,
    from the '{' of the first through the '}' of the second, with whatever
    stands between them. *)
Theorem jsonMatch_greedy (pre o1 between o2 post : string) :
  jsonMatch ("{" ++ o1 ++ "}") = Some ("{" ++ o1 ++ "}") /\
  (forall text j, jsonMatch text = Some j -> jsonMatch j = Some j) /\
  (Js.includes pre "{" = false ->
   Js.includes post "}" = false ->
   jsonMatch (pre ++ ("{" ++ o1 ++ "}") ++ between ++ ("{" ++ o2 ++ "}") ++ post) =
   Some (("{" ++ o1 ++ "}") ++ between ++ ("{" ++ o2 ++ "}"))).
Proof.
  assert (Hwhole : forall m, jsonMatch ("{" ++ m ++ "}") = Some ("{" ++ m ++ "}")).
  { intros m. apply jsonMatch_iff. exists "", m, "". repeat split. }
  split; [apply Hwhole |]. split.
  - intros text j Hj. apply jsonMatch_iff in Hj.
    destruct Hj as (p & m & q & _ & -> & _). apply Hwhole.
  - intros Hpre Hpost. apply jsonMatch_iff.
    exists pre, (o1 ++ "}" ++ between ++ "{" ++ o2), post.
    repeat split; auto; repeat (cbn [append]; rewrite ?append_assoc); reflexivity.
Qed.

Lemma jsonMatch_greedy_witness :
  jsonMatch ("Either " ++ ("{" ++ "wait" ++ "}") ++ " or " ++ ("{" ++ "escalate" ++ "}") ++ ".") =
  Some (("{" ++ "wait" ++ "}") ++ " or " ++ ("{" ++ "escalate" ++ "}")).
Proof.
  apply (proj2 (proj2 (jsonMatch_greedy "Either " "wait" " or " "escalate" ".")));
    reflexivity.
Defined.

(** The ways the reasoner's [try] block can fail. *)
Lemma generate_and_parse_failed
      (gen : Subscription.t -> string -> ApiReply string)
      (parse : string -> ApiReply LLMHandler.Diagnosis)
      (data : Subscription.t) (issue msg : string) :
  ReplyParser.generate_and_parse gen parse data issue = Failed msg <->
  gen data issue = Failed msg \/
  (exists text, gen data issue = Reply text /\ jsonMatch text = None /\
                msg = "LLM did not return valid JSON") \/
  (exists text j, gen data issue = Reply text /\ jsonMatch text = Some j /\
                  parse j = Failed msg).
Proof.
  unfold ReplyParser.generate_and_parse.
  destruct (gen data issue) as [text | e].
  - destruct (jsonMatch text) as [j |] eqn:Hj; split.
    + intros H. right. right. now exists text, j.
    + intros [H | [(t & H & H' & _) | (t & j' & H & H' & Hp)]];
        try discriminate; inversion H; subst t; congruence.
    + intros H. inversion H. right. left. now exists text.
    + intros [H | [(t & H & _ & ->) | (t & j' & H & H' & _)]];
        try discriminate; [reflexivity |]. inversion H; subst t. congruence.
  - split.
    + intros H. left. congruence.
    + intros [H | [(t & H & _) | (t & j' & H & _)]]; try discriminate. congruence.
Qed.

(** X18. No failure of the reasoner reaches the caller as an error. When no
    rule matches and the reasoner fails - the model call throws, the reply
    holds no '{' ... '}' text (the error is then 'LLM did not return valid
    JSON'), or the matched text does not parse - the handler still answers
    200, as method 'llm_failed' with action 'escalate', confidence 0 and
    the error message as reasoning, having made the GET and the generative
    call and nothing else. *)
Theorem reasoner_failures_escalate
        (get : string -> ApiReply Subscription.t) (post : string -> ApiReply string)
        (gen : Subscription.t -> string -> ApiReply string)
        (parse : string -> ApiReply LLMHandler.Diagnosis)
        (t0 t t1 : Z) (sid issue msg : string) (data : Subscription.t) :
  sid <> "" -> issue <> "" ->
  get ("/subscriptions/" ++ sid) = Reply data ->
  evaluate t data issue = None ->
  (gen data issue = Failed msg \/
   (exists text, gen data issue = Reply text /\
                 (forall a b c, text <> a ++ "{" ++ b ++ "}" ++ c) /\
                 msg = "LLM did not return valid JSON") \/
   (exists text pre mid post,
       gen data issue = Reply text /\
       text = pre ++ "{" ++ mid ++ "}" ++ post /\
       Js.includes pre "{" = false /\ Js.includes post "}" = false /\
       parse ("{" ++ mid ++ "}") = Failed msg)) ->
  exists b,
    diagnose (mkWorld get post (ReplyParser.generate_and_parse gen parse) t0 t t1)
             (mkRequest (Some sid) (Some issue)) =
    ([HttpGet ("/subscriptions/" ++ sid); GenerateContent],
     {| statusCode := 200; body := Diagnosed b |}) /\
    method b = "llm_failed" /\
    body_confidence b = 0 /\
    body_action b = "escalate" /\
    body_reasoning b = msg.
Proof.
  intros Hs Hi Hget Heval Hfail.
  apply (Orchestration.reasoner_failure_escalates
           (mkWorld get post (ReplyParser.generate_and_parse gen parse) t0 t t1)
           sid issue msg data Hs Hi Hget Heval).
  cbn [generate_and_parse]. apply generate_and_parse_failed.
  destruct Hfail as [H | [(text & H & Hno & ->) | (text & pre & mid & post' & H & E & Hp & Hq & Hparse)]].
  - now left.
  - right. left. exists text. repeat split; auto. now apply jsonMatch_none_iff.
  - right. right. exists text, ("{" ++ mid ++ "}"). repeat split; auto.
    apply jsonMatch_iff. now exists pre, mid, post'.
Qed.

Lemma reasoner_failures_escalate_witness :
  exists b,
    diagnose (Cases.world_replying Samples.active_active Cases.prose_reply
                                   (fun _ => Reply (Samples.proposal 90)) 0)
             (Samples.request Samples.vague) =
    ([HttpGet "/subscriptions/sub_1"; GenerateContent],
     {| statusCode := 200; body := Diagnosed b |}) /\
    method b = "llm_failed" /\
    body_confidence b = 0 /\
    body_action b = "escalate" /\
    body_reasoning b = "LLM did not return valid JSON".
Proof.
  apply (reasoner_failures_escalate
           (fun _ => Reply Samples.active_active) (fun _ => Samples.endpoint_missing)
           (fun _ _ => Reply Cases.prose_reply) (fun _ => Reply (Samples.proposal 90))
           (0 - 5) 0 (0 + 40) "sub_1" Samples.vague "LLM did not return valid JSON"
           Samples.active_active);
    [discriminate | discriminate | reflexivity | reflexivity |].
  right. left. exists Cases.prose_reply.
  repeat split; auto. apply jsonMatch_none_iff. reflexivity.
Defined.

End ReasonerFailures.

(** ** The scenario runner against the handler *)

Module Scenarios.
Import RuleEngine Server HandlerCases TestScenarios.

(** X19. The runner's counters. Whatever the server answers, each scenario
    is counted exactly once, as passed or as failed: the two counters never
    decrease and their sum grows by the number of scenarios, so [runTests]
    ends with passed + failed = 5. When every request throws (server down),
    all scenarios are counted as failed. *)
Theorem run_counts_each_scenario_once
        (post : Request -> ApiReply DiagnosisBody) (scenarios : list Scenario)
        (passed failed : nat) :
  (fst (run post scenarios passed failed) + snd (run post scenarios passed failed)
   = passed + failed + List.length scenarios)%nat /\
  (passed <= fst (run post scenarios passed failed))%nat /\
  (failed <= snd (run post scenarios passed failed))%nat /\
  (fst (runTests post) + snd (runTests post) = 5)%nat /\
  ((forall req, exists e, post req = Failed e) ->
   run post scenarios passed failed = (passed, (failed + List.length scenarios)%nat)).
Proof.
  assert (Hgen : forall scs p f,
             (fst (run post scs p f) + snd (run post scs p f)
              = p + f + List.length scs)%nat /\
             (p <= fst (run post scs p f))%nat /\
             (f <= snd (run post scs p f))%nat).
  { induction scs as [| sc scs IH]; intros p f; cbn [run List.length fst snd].
    - lia.
    - destruct (verdict sc (post (request sc))).
      + destruct (IH (S p) f) as (H1 & H2 & H3). lia.
      + destruct (IH p (S f)) as (H1 & H2 & H3). lia. }
  destruct (Hgen scenarios passed failed) as (H1 & H2 & H3).
  repeat split; auto.
  - unfold runTests. destruct (Hgen testScenarios 0%nat 0%nat) as (H & _).
    rewrite H. reflexivity.
  - intros Hdown. revert passed failed H1 H2 H3.
    induction scenarios as [| sc scs IH]; intros p f _ _ _; cbn [run List.length].
    + f_equal. lia.
    + destruct (Hdown (request sc)) as [e ->]. cbn [verdict].
      destruct (Hgen scs p (S f)) as (H1 & H2 & H3).
      rewrite (IH p (S f) H1 H2 H3). f_equal. lia.
Qed.

Lemma run_counts_each_scenario_once_witness :
  run (fun _ => Failed "connect ECONNREFUSED") testScenarios 0%nat 0%nat =
  (0%nat, (0 + List.length testScenarios)%nat).
Proof.
  apply (run_counts_each_scenario_once (fun _ => Failed "connect ECONNREFUSED")
           testScenarios 0%nat 0%nat).
  intros req. now exists "connect ECONNREFUSED".
Defined.

(** A diagnosis is sent with status 200, so [axios.post] returns exactly
    the diagnoses. *)
Lemma axios_post_reply (w : World) (req : Request) (b : DiagnosisBody) :
  axios_post w req = Reply b <-> body (snd (diagnose w req)) = Diagnosed b.
Proof.
  unfold axios_post.
  destruct (diagnose_cases w req)
    as [[_ Hd] | (sid & issue & _ & _ & _ & _ &
                  [(e & _ & Hd) | (data & _ & [(res & _ & Hd) | (_ & Hd)])])];
    rewrite Hd; cbn [snd].
  - cbn. split; discriminate.
  - cbn. split; discriminate.
  - destruct (rule_path_cases w sid res) as (b' & -> & _). cbn.
    split; intros E; inversion E; reflexivity.
  - destruct (llm_path_cases w sid issue data) as (b' & -> & _). cbn.
    split; intros E; inversion E; reflexivity.
Qed.

Lemma verdict_passed (sc : Scenario) (w : World) :
  verdict sc (axios_post w (request sc)) = true ->
  exists b, body (snd (diagnose w (request sc))) = Diagnosed b /\
            (Js.truthy (expectedMethod sc) &&
             differs (Some (method b)) (expectedMethod sc))%bool = false /\
            (Js.truthy (expectedRule sc) &&
             differs (rule b) (expectedRule sc))%bool = false.
Proof.
  unfold verdict. destruct (axios_post w (request sc)) as [b | e] eqn:Hpost;
    [| discriminate].
  apply axios_post_reply in Hpost. intros H. exists b. split; [exact Hpost |].
  destruct (Js.truthy (expectedMethod sc) &&
            differs (Some (method b)) (expectedMethod sc))%bool; [discriminate |].
  destruct (Js.truthy (expectedRule sc) &&
            differs (rule b) (expectedRule sc))%bool; [discriminate |]. auto.
Qed.

(** X20. What a rule scenario tests. Run against the handler, a scenario
    that expects method 'rule_engine' and rule [n] is counted as passed
    exactly when its request has both fields, the provider serves the
    subscription, and [evaluate] on the served record and the scenario's
    text returns the diagnosis named [n]. *)
Theorem rule_scenario_passes_iff (w : World) (sc : Scenario) (sid issue n : string) :
  request sc = mkRequest (Some sid) (Some issue) ->
  expectedMethod sc = Some "rule_engine" ->
  expectedRule sc = Some n -> n <> "" ->
  (verdict sc (axios_post w (request sc)) = true <->
   sid <> "" /\ issue <> "" /\
   exists data res,
     http_get w ("/subscriptions/" ++ sid) = Reply data /\
     evaluate (now w) data issue = Some res /\
     ruleName res = n).
Proof.
  intros Hreq Hm Hr Hn. split.
  - intros Hv. destruct (verdict_passed sc w Hv) as (b & Hb & Hmeth & Hrule).
    rewrite Hm in Hmeth. rewrite Hr in Hrule.
    rewrite (proj2 (JsFacts.truthy_spec n) Hn) in Hrule.
    cbn in Hmeth, Hrule. apply negb_false_iff, String.eqb_eq in Hmeth.
    rewrite Hreq in Hb.
    destruct (diagnose_cases w (mkRequest (Some sid) (Some issue)))
      as [[_ Hd] | (sid' & issue' & Es & Ei & Hs & Hi &
                    [(e & _ & Hd) | (data & Hget & [(res & Heval & Hd) | (_ & Hd)])])];
      rewrite Hd in Hb; cbn [snd] in Hb; try (cbn in Hb; discriminate);
      cbn in Es, Ei; inversion Es; inversion Ei; subst sid' issue'.
    + destruct (rule_path_cases w sid res) as (b' & Hb' & _ & Hrl & _).
      rewrite Hb' in Hb. cbn in Hb. inversion Hb; subst b'.
      rewrite Hrl in Hrule. cbn in Hrule.
      apply negb_false_iff, String.eqb_eq in Hrule.
      repeat split; auto. now exists data, res.
    + destruct (llm_path_cases w sid issue data)
        as (b' & Hb' & _ & [(m & _ & _ & Hm' & _) | (d & _ & Hm' & _)]);
        rewrite Hb' in Hb; cbn in Hb; inversion Hb; subst b'; congruence.
  - intros (Hs & Hi & data & res & Hget & Heval & Hname).
    unfold verdict.
    destruct (axios_post w (request sc)) as [b | e] eqn:Hpost.
    + apply axios_post_reply in Hpost. rewrite Hreq in Hpost.
      rewrite (Orchestration.diagnose_fetched w sid issue data Hs Hi Hget), Heval
        in Hpost.
      destruct (rule_path_cases w sid res) as (b' & Hb' & Hm' & Hrl & _).
      destruct (rule_path w sid res) as [c r]. cbn [snd] in *. subst r.
      cbn in Hpost. inversion Hpost; subst b'.
      rewrite Hm, Hr, Hm', Hrl, Hname, (proj2 (JsFacts.truthy_spec n) Hn).
      cbn. now rewrite String.eqb_refl.
    + exfalso.
      destruct (rule_path_cases w sid res) as (b' & Hb' & _).
      assert (Hreply : axios_post w (request sc) = Reply b').
      { apply axios_post_reply. rewrite Hreq.
        rewrite (Orchestration.diagnose_fetched w sid issue data Hs Hi Hget), Heval.
        destruct (rule_path w sid res) as [c r]. cbn [snd] in *. now subst r. }
      congruence.
Qed.

End Scenarios.

(** ** The fallback scenarios *)

Module FallbackScenarios.
Import RuleEngine Server HandlerCases TestScenarios Scenarios.

(** The 'Device Config' scenario against a provider that serves an active
    subscription on an active SIM. *)
Lemma rule_scenario_passes_iff_witness :
  verdict
    (mkScenario "Rule Engine - Device Config"
                "SIM shows active but user has no service"
                (mkRequest (Some "sub_test_active")
                           (Some "I have no service even though it says active"))
                (Some "rule_engine") (Some "device_config"))
    (axios_post (Samples.world Samples.active_active Samples.endpoint_missing
                               (Failed "not called") 0)
                (mkRequest (Some "sub_test_active")
                           (Some "I have no service even though it says active")))
  = true.
Proof.
  apply (proj2 (rule_scenario_passes_iff
                  (Samples.world Samples.active_active Samples.endpoint_missing
                                 (Failed "not called") 0)
                  (mkScenario "Rule Engine - Device Config"
                              "SIM shows active but user has no service"
                              (mkRequest (Some "sub_test_active")
                                         (Some "I have no service even though it says active"))
                              (Some "rule_engine") (Some "device_config"))
                  "sub_test_active" "I have no service even though it says active"
                  "device_config" eq_refl eq_refl eq_refl ltac:(discriminate))).
  split; [discriminate |]. split; [discriminate |].
  exists Samples.active_active. eexists.
  split; [reflexivity |]. split; reflexivity.
Defined.

(** X21. What a fallback scenario tests. Run against the handler, a
    scenario that expects method 'llm' and no rule is counted as passed
    exactly when its request has both fields, the provider serves the
    subscription, no rule matches the served record and the text, and the
    reasoner returns a parsed diagnosis. It is counted as failed whenever
    the reasoner fails, since the answer is then tagged 'llm_failed'. *)
Theorem llm_scenario_passes_iff (w : World) (sc : Scenario) (sid issue : string) :
  request sc = mkRequest (Some sid) (Some issue) ->
  expectedMethod sc = Some "llm" ->
  expectedRule sc = None ->
  (verdict sc (axios_post w (request sc)) = true <->
   sid <> "" /\ issue <> "" /\
   exists data d,
     http_get w ("/subscriptions/" ++ sid) = Reply data /\
     evaluate (now w) data issue = None /\
     generate_and_parse w data issue = Reply d).
Proof.
  intros Hreq Hm Hr. split.
  - intros Hv. destruct (verdict_passed sc w Hv) as (b & Hb & Hmeth & _).
    rewrite Hm in Hmeth. cbn in Hmeth.
    apply negb_false_iff, String.eqb_eq in Hmeth.
    rewrite Hreq in Hb.
    destruct (diagnose_cases w (mkRequest (Some sid) (Some issue)))
      as [[_ Hd] | (sid' & issue' & Es & Ei & Hs & Hi &
                    [(e & _ & Hd) | (data & Hget & [(res & Heval & Hd) | (Heval & Hd)])])];
      rewrite Hd in Hb; cbn [snd] in Hb; try (cbn in Hb; discriminate);
      cbn in Es, Ei; inversion Es; inversion Ei; subst sid' issue'.
    + destruct (rule_path_cases w sid res) as (b' & Hb' & Hm' & _).
      rewrite Hb' in Hb. cbn in Hb. inversion Hb; subst b'. congruence.
    + destruct (llm_path_cases w sid issue data)
        as (b' & Hb' & _ & [(m & _ & _ & Hm' & _) | (d & Hd' & _)]);
        rewrite Hb' in Hb; cbn in Hb; inversion Hb; subst b'; [congruence |].
      repeat split; auto. now exists data, d.
  - intros (Hs & Hi & data & d & Hget & Heval & Hllm).
    destruct (llm_path_cases w sid issue data)
      as (b & Hb & _ & [(m & Hfail & _) | (d' & _ & Hm' & _)]); [congruence |].
    assert (Hreply : axios_post w (request sc) = Reply b).
    { apply axios_post_reply. rewrite Hreq.
      rewrite (Orchestration.diagnose_fetched w sid issue data Hs Hi Hget), Heval.
      destruct (llm_path w sid data issue) as [c r]. cbn [snd] in *. now subst r. }
    unfold verdict. rewrite Hreply, Hm, Hr, Hm'. reflexivity.
Qed.

(** The 'Ambiguous Issue' scenario against a reasoner that answers. *)
Lemma llm_scenario_passes_iff_witness :
  verdict
    (mkScenario "LLM Fallback - Ambiguous Issue"
                "Vague user input that requires LLM interpretation"
                (mkRequest (Some "sub_test_ambiguous") (Some "it just doesn't work"))
                (Some "llm") None)
    (axios_post (Samples.world Samples.active_active Samples.endpoint_missing
                               (Reply (Samples.proposal 60)) 0)
                (mkRequest (Some "sub_test_ambiguous") (Some "it just doesn't work")))
  = true.
Proof.
  apply (proj2 (llm_scenario_passes_iff
                  (Samples.world Samples.active_active Samples.endpoint_missing
                                 (Reply (Samples.proposal 60)) 0)
                  (mkScenario "LLM Fallback - Ambiguous Issue"
                              "Vague user input that requires LLM interpretation"
                              (mkRequest (Some "sub_test_ambiguous")
                                         (Some "it just doesn't work"))
                              (Some "llm") None)
                  "sub_test_ambiguous" "it just doesn't work"
                  eq_refl eq_refl eq_refl)).
  split; [discriminate |]. split; [discriminate |].
  exists Samples.active_active, (Samples.proposal 60).
  split; [reflexivity |]. split; reflexivity.
Defined.

End FallbackScenarios.

(** ** The keyword rule and the method tags *)

Module Tags.
Import RuleEngine RuleFacts RuleTable Server HandlerCases.

Lemma first_six_names (now : Z) (data : Subscription.t) (text : string)
      (r : Rule) (res : RuleResult) :
  In r (firstn 6 rules) -> r now data text = Some res ->
  ruleName res <> "activation_failed".
Proof.
  rewrite first_six. cbn [In].
  intros [<- | [<- | [<- | [<- | [<- | [<- | []]]]]]] H.
  - apply ruleProvisioningStuck_inv in H. destruct H as (_ & _ & _ & -> & _). discriminate.
  - apply ruleBillingHold_inv in H. destruct H as (_ & _ & -> & _). discriminate.
  - apply ruleNormalDelay_inv in H. destruct H as (_ & _ & _ & -> & _). discriminate.
  - apply ruleDeviceConfig_inv in H. destruct H as (_ & _ & _ & -> & _). discriminate.
  - apply rulePaymentOverdue_inv in H. destruct H as (_ & -> & _). discriminate.
  - apply ruleSubscriptionEnded_inv in H. destruct H as (_ & -> & _). discriminate.
Qed.

Lemma ruleActivationFailed_cases (now : Z) (data : Subscription.t) (text : string) :
  (Js.includes (Js.toLowerCase text) "activation failed" = true /\
   exists res, ruleActivationFailed now data text = Some res /\
               ruleName res = "activation_failed") \/
  (Js.includes (Js.toLowerCase text) "activation failed" = false /\
   ruleActivationFailed now data text = None).
Proof.
  unfold ruleActivationFailed, Js.some_includes, activationFailedKeyword.
  cbn [existsb]. rewrite orb_false_r.
  destruct (Js.includes (Js.toLowerCase text) "activation failed").
  - left. split; [reflexivity |]. eexists. split; reflexivity.
  - right. split; reflexivity.
Qed.

(** X22. When the keyword rule decides. [evaluate] returns the
    activation_failed diagnosis exactly when the lower-cased text holds
    'activation failed' and none of the six status rules matches; and it
    returns [null] exactly when the text does not hold it and none of the
    six matches. *)
Theorem keyword_rule_fires_iff (now : Z) (data : Subscription.t) (text : string) :
  ((exists res, evaluate now data text = Some res /\
                ruleName res = "activation_failed") <->
   Js.includes (Js.toLowerCase text) "activation failed" = true /\
   Forall (abstains now data text) (firstn 6 rules)) /\
  (evaluate now data text = None <->
   Js.includes (Js.toLowerCase text) "activation failed" = false /\
   Forall (abstains now data text) (firstn 6 rules)).
Proof.
  assert (Heval : evaluate now data text =
                  match snd (run_rules (firstn 6 rules) now data text) with
                  | Some res => Some res
                  | None => ruleActivationFailed now data text
                  end).
  { unfold evaluate.
    replace (run_rules rules now data text)
      with (run_rules (firstn 6 rules ++ [ruleActivationFailed])%list now data text)
      by reflexivity.
    rewrite RuleOrder.run_rules_app. cbn [run_rules].
    destruct (snd (run_rules (firstn 6 rules) now data text)); [reflexivity |].
    destruct (ruleActivationFailed now data text); reflexivity. }
  rewrite Heval.
  destruct (snd (run_rules (firstn 6 rules) now data text)) as [r6 |] eqn:Hsix.
  - assert (Hmatch : exists r, In r (firstn 6 rules) /\ r now data text = Some r6).
    { apply RuleOrder.run_rules_snd_some; [apply RuleOrder.first_six_agree | exact Hsix]. }
    destruct Hmatch as (r & Hin & Hr).
    assert (Hnot : ~ Forall (abstains now data text) (firstn 6 rules)).
    { intros Hall. rewrite Forall_forall in Hall. specialize (Hall r Hin).
      unfold abstains in Hall. congruence. }
    split; split.
    + intros (res & E & Hname). inversion E; subst res.
      exfalso. exact (first_six_names now data text r r6 Hin Hr Hname).
    + intros [_ Hall]. contradiction.
    + discriminate.
    + intros [_ Hall]. contradiction.
  - apply RuleOrder.run_rules_snd_none in Hsix.
    destruct (ruleActivationFailed_cases now data text)
      as [(Hinc & res & -> & Hname) | (Hinc & ->)]; rewrite Hinc.
    + split; split; try (intros; split; auto; fail).
      * intros _. now exists res.
      * discriminate.
      * intros [H _]. discriminate.
    + split; split; try (intros; split; auto; fail).
      * intros (res & E & _). discriminate.
      * intros [H _]. discriminate.
Qed.

Lemma keyword_rule_fires_iff_witness :
  exists res, evaluate 0 Samples.active_active Samples.says_activation_failed = Some res /\
              ruleName res = "activation_failed".
Proof.
  apply (proj2 (proj1 (keyword_rule_fires_iff 0 Samples.active_active
                         Samples.says_activation_failed))).
  split; [reflexivity |]. repeat constructor.
Defined.

Lemma llm_path_rule (w : World) (sid issue : string) (data : Subscription.t)
      (b : DiagnosisBody) :
  body (snd (llm_path w sid data issue)) = Diagnosed b -> rule b = None.
Proof.
  unfold llm_path.
  destruct (llm_diagnose w data issue) as [c r].
  destruct (negb (LLMHandler.success r));
    [cbn; intros E; injection E as <-; reflexivity |].
  destruct (80 <=? LLMHandler.confidence (LLMHandler.result_diagnosis r));
    [| cbn; intros E; injection E as <-; reflexivity].
  destruct (Js.opt_chain (Subscription.sim data) Sim.id) as [t |];
    [| cbn; intros E; injection E as <-; reflexivity].
  destruct (String.eqb (LLMHandler.recommendedAction (LLMHandler.result_diagnosis r))
                       "reprovision" && Js.truthy (Some t))%bool;
    [| cbn; intros E; injection E as <-; reflexivity].
  destruct (reprovisionSIM w t). cbn. intros E; injection E as <-; reflexivity.
Qed.

(** X23. The method tag and the rule name of an answer. Every diagnosis the
    handler sends is tagged 'rule_engine', 'llm' or 'llm_failed'. A
    'rule_engine' answer names one of the seven rules, with a confidence
    between 85 and 100 and one of the enumerated actions; an 'llm' or
    'llm_failed' answer names no rule, and an 'llm_failed' answer is the
    escalation at confidence 0. *)
Theorem method_tags (w : World) (req : Request) (b : DiagnosisBody) :
  body (snd (diagnose w req)) = Diagnosed b ->
  (method b = "rule_engine" /\
   exists n, rule b = Some n /\ In n rule_order /\
             85 <= body_confidence b <= 100 /\
             In (body_action b) enumerated_actions) \/
  (method b = "llm" /\ rule b = None) \/
  (method b = "llm_failed" /\ rule b = None /\
   body_confidence b = 0 /\ body_action b = "escalate").
Proof.
  destruct (diagnose_cases w req)
    as [[_ Hd] | (sid & issue & _ & _ & _ & _ &
                  [(e & _ & Hd) | (data & _ & [(res & Heval & Hd) | (_ & Hd)])])];
    rewrite Hd; cbn [snd]; try (cbn; discriminate).
  - destruct (rule_path_cases w sid res) as (b' & -> & Hm & Hr & Hc & Ha & _).
    cbn [body]. intros E; inversion E; subst b'.
    destruct (evaluate_shaped (now w) data issue res Heval)
      as (nm & Hin & Hname & Hconf & Hact).
    left. split; [exact Hm |]. exists (ruleName res).
    split; [exact Hr |]. split; [rewrite Hname; exact Hin |].
    split; [rewrite Hc; lia | rewrite Ha; exact Hact].
  - intros Hb. pose proof (llm_path_rule w sid issue data b Hb) as Hrule.
    destruct (llm_path_cases w sid issue data)
      as (b' & Hb' & _ & [(m & _ & _ & Hm & Hc & Ha & _) | (d & _ & Hm & _)]);
      rewrite Hb' in Hb; cbn in Hb; inversion Hb; subst b'.
    + right. right. repeat split; assumption.
    + right. left. split; assumption.
Qed.

Lemma method_tags_witness :
  method
    (mkBody "llm" None 79 "escalate" "We are looking into it." "API state is ambiguous"
            None
            ["GET /subscriptions/sub_1";
             "POST /models/gemini-2.5-flash:generateContent (Gemini API)"]
            45) = "llm" /\
  rule
    (mkBody "llm" None 79 "escalate" "We are looking into it." "API state is ambiguous"
            None
            ["GET /subscriptions/sub_1";
             "POST /models/gemini-2.5-flash:generateContent (Gemini API)"]
            45) = None.
Proof.
  destruct (method_tags
              (Samples.world Samples.active_active Samples.endpoint_missing
                             (Reply (Samples.proposal 79)) 0)
              (Samples.request Samples.vague) _ eq_refl)
    as [[H _] | [H | [H _]]]; [discriminate H | exact H | discriminate H].
Defined.

End Tags.

(** ** The catch block *)

Module CatchBlock.
Import RuleEngine Server.



End CatchBlock.
